(** * UK house price dashboard: the data layer of [app.py]

    The script reads one CSV file with pandas, parses its [Date] column,
    drops [Average_Price_SA], and then derives a region list, a per-region
    slice, the latest date, the slice at that date and its ten dearest rows.
    This file embeds those steps and states what they guarantee.

    pandas, numpy and Streamlit are libraries of the script, so their
    documented behaviour is written out here as far as the script uses it.
    What the libraries leave open, or compute in floating point, stays a
    parameter of the development: the numeric field parser of [read_csv],
    the scalar parser of [to_datetime], numpy's [argsort] of kind
    quicksort, and the column selection and the figures of [describe].
    For the sort, numpy's portable quicksort is written out as well, as
    one sort the parameter may stand for. *)

From Stdlib Require Import List String Ascii ZArith Bool Arith Lia.
From Stdlib Require Import Permutation Sorted.
Import ListNotations.
Local Open Scope string_scope.
Local Open Scope list_scope.

(** ** Exceptions and fallible results *)

Inductive exn : Type :=
| FileNotFoundError
| PermissionError
| KeyError (label : string)
| ValueError (text : string)
| TypeError
| AttributeError
| StopException.

Definition result (A : Type) : Type := (exn + A)%type.

Definition ret {A : Type} (a : A) : result A := inr a.

Definition raise {A : Type} (e : exn) : result A := inl e.

Definition bind {A B : Type} (m : result A) (k : A -> result B) : result B :=
  match m with
  | inl e => inl e
  | inr a => k a
  end.

Declare Scope result_scope.
Delimit Scope result_scope with result.
Notation "x <- m ;; k" := (bind m (fun x => k))
  (at level 61, m at next level, right associativity) : result_scope.
Local Open Scope result_scope.

Fixpoint mapM {A B : Type} (f : A -> result B) (l : list A) : result (list B) :=
  match l with
  | [] => ret []
  | a :: t => b <- f a ;; bs <- mapM f t ;; ret (b :: bs)
  end.

(** ** Cells and frames

    A cell is what one position of a pandas column holds: a missing value
    (NaN in a float or object column, NaT in a datetime column), a Python
    string, a number, or a timestamp in nanoseconds since the epoch.  The
    queries only compare numbers, so a float64 payload is kept as an
    integer. *)

Inductive cell : Type :=
| NA
| Text (s : string)
| Number (z : Z)
| Timestamp (t : Z).

Definition cell_eqb (a b : cell) : bool :=
  match a, b with
  | NA, NA => true
  | Text s, Text t => String.eqb s t
  | Number x, Number y => Z.eqb x y
  | Timestamp x, Timestamp y => Z.eqb x y
  | _, _ => false
  end.

(** Element-wise [==] of a Series against a scalar: a missing value equals
    nothing, not even another missing value. *)
Definition elem_eq (c v : cell) : bool :=
  match c with
  | NA => false
  | _ => cell_eqb c v
  end.

Definition isna (c : cell) : bool :=
  match c with
  | NA => true
  | _ => false
  end.

Definition notna (c : cell) : bool := negb (isna c).

(** A frame keeps its column labels and its rows in order. *)
Record DataFrame : Type := mkDataFrame {
  columns : list string;
  values : list (list cell)
}.

Definition shape (df : DataFrame) : nat * nat :=
  (List.length (values df), List.length (columns df)).

(** [Index.get_loc]: position of the first column carrying the label. *)
Fixpoint get_loc (labels : list string) (key : string) : option nat :=
  match labels with
  | [] => None
  | l :: ls => if String.eqb l key then Some 0 else option_map S (get_loc ls key)
  end.

Definition at_loc (j : nat) (row : list cell) : cell := nth j row NA.

(** [df[key]]: the column as a list of cells, [KeyError] without it. *)
Definition getitem (df : DataFrame) (key : string) : result (list cell) :=
  match get_loc (columns df) key with
  | None => raise (KeyError key)
  | Some j => ret (map (at_loc j) (values df))
  end.

Fixpoint set_nth {A : Type} (j : nat) (x : A) (l : list A) : list A :=
  match l, j with
  | [], _ => []
  | _ :: t, O => x :: t
  | a :: t, S j' => a :: set_nth j' x t
  end.

Fixpoint zip_with {A B C : Type} (f : A -> B -> C) (l : list A) (m : list B) : list C :=
  match l, m with
  | a :: l', b :: m' => f a b :: zip_with f l' m'
  | _, _ => []
  end.

(** [df[key] = vals]: overwrites the column in place when the label exists,
    appends a column otherwise; a length mismatch is a [ValueError]. *)
Definition setitem (df : DataFrame) (key : string) (vals : list cell) : result DataFrame :=
  if negb (List.length vals =? List.length (values df))%nat
  then raise (ValueError "Length of values does not match length of index")
  else match get_loc (columns df) key with
       | Some j =>
           ret (mkDataFrame (columns df)
                  (zip_with (fun row v => set_nth j v row) (values df) vals))
       | None =>
           ret (mkDataFrame (columns df ++ [key])
                  (zip_with (fun row v => row ++ [v]) (values df) vals))
       end.

Definition other_label (key l : string) : bool := negb (String.eqb l key).

Definition drop_cells (key : string) (labels : list string) (row : list cell) : list cell :=
  map snd (filter (fun lc => other_label key (fst lc)) (combine labels row)).

(** [df.drop(columns=[key])] with the default [errors='raise']: a new frame
    without the column, [KeyError] when the label is not a column. *)
Definition drop (df : DataFrame) (key : string) : result DataFrame :=
  match get_loc (columns df) key with
  | None => raise (KeyError key)
  | Some _ =>
      ret (mkDataFrame (filter (other_label key) (columns df))
             (map (drop_cells key (columns df)) (values df)))
  end.

(** The figures [describe] reports for one column: count, mean, std, min,
    the three quartiles and max, in that order. *)
Definition stats : Type := list cell.

(** The nanoseconds a timestamp holds are a signed 64-bit integer, and
    the least of them is the mark of NaT. *)
Definition iNaT : Z := (- 2 ^ 63)%Z.

Definition in_bounds (z : Z) : bool := (iNaT <? z)%Z && (z <? 2 ^ 63)%Z.

(** ** The file system and [read_csv] *)

(** What a path leads to: nothing, a file the process may not read, or a
    file that the tokenizer of [read_csv] has accepted and cut into a header
    and data lines, one string per field.  What the tokenizer does before
    that is not modelled: it refuses a file without a header line and a
    file with a data line of more fields than it expects, it takes the
    leading fields for the index when the first data line is longer than
    the header, it skips blank lines, and it renames a label that repeats
    in the header; [header] stands for the labels as the columns then
    carry them, and [records] for the data lines as they are then cut. *)
Inductive entry : Type :=
| NoEntry
| Denied
| Content (header : list string) (records : list (list string)).

Definition filesystem : Type := string -> entry.

(** The strings [read_csv] turns into a missing value by default. *)
Definition STR_NA_VALUES : list string :=
  [""; "#N/A"; "#N/A N/A"; "#NA"; "-1.#IND"; "-1.#QNAN"; "-NaN"; "-nan";
   "1.#IND"; "1.#QNAN"; "<NA>"; "N/A"; "NA"; "NULL"; "NaN"; "None";
   "n/a"; "nan"; "null"].

Definition mem_string (s : string) (l : list string) : bool :=
  existsb (String.eqb s) l.

Definition is_na_field (s : string) : bool := mem_string s STR_NA_VALUES.

(** The strings [to_datetime] reads as NaT. *)
Definition nat_strings : list string :=
  ["NaT"; "nat"; "NAT"; "nan"; "NaN"; "NAN"].

Definition is_nat_string (s : string) : bool :=
  String.eqb s "" || mem_string s nat_strings.

Section DataLayer.

(** The numeric field parser of [read_csv] and the scalar parser of
    [to_datetime]; which spellings they accept is pandas' business.  Recent
    pandas also holds every string of a column to the format of the first
    one, and so rejects more columns than a scalar parser does; that is not
    modelled. *)
Variable parse_number : string -> option Z.
Variable parse_datetime : string -> option Z.

Definition is_number_field (s : string) : bool :=
  match parse_number s with
  | Some _ => true
  | None => false
  end.

(** A column is numeric when every field that is not missing is a number.
    The number of a field is kept as it is written; pandas holds such a
    column as 64-bit integers, or as floats once a value is missing or does
    not fit, and rounds accordingly; that rounding is not modelled. *)
Definition numeric_column (fields : list string) : bool :=
  forallb (fun s => is_na_field s || is_number_field s) fields.

Definition convert_field (numeric : bool) (s : string) : cell :=
  if is_na_field s then NA
  else if numeric
       then match parse_number s with
            | Some z => Number z
            | None => Text s
            end
       else Text s.

Definition field_at (j : nat) (record : list string) : string := nth j record "".

Definition column_kinds (header : list string) (records : list (list string)) : list bool :=
  map (fun j => numeric_column (map (field_at j) records)) (seq 0 (List.length header)).

(** One cell per column of the header: a line that ends early is padded
    with missing values. *)
Definition convert_record (kinds : list bool) (record : list string) : list cell :=
  map (fun jk => convert_field (snd jk) (field_at (fst jk) record))
      (combine (seq 0 (List.length kinds)) kinds).

(** The frame built from a tokenized file: one row per data line. *)
Definition frame_read (header : list string) (records : list (list string)) : DataFrame :=
  mkDataFrame header (map (convert_record (column_kinds header records)) records).

Definition read_csv (fs : filesystem) (path : string) : result DataFrame :=
  match fs path with
  | NoEntry => raise FileNotFoundError
  | Denied => raise PermissionError
  | Content header records => ret (frame_read header records)
  end.

(** [pd.to_datetime] with the default [errors='raise'].  A number is a
    count of nanoseconds; it has to fit the signed 64 bits of a timestamp,
    whose least value stands for NaT, and [OutOfBoundsDatetime], a
    [ValueError], is raised for one that does not. *)
Definition to_datetime_scalar (c : cell) : result cell :=
  match c with
  | NA => ret NA
  | Timestamp t => ret (Timestamp t)
  | Number z =>
      if (z =? iNaT)%Z then ret NA
      else if in_bounds z then ret (Timestamp z)
      else raise (ValueError "Out of bounds nanosecond timestamp")
  | Text s =>
      if is_nat_string s then ret NA
      else match parse_datetime s with
           | Some t => ret (Timestamp t)
           | None => raise (ValueError s)
           end
  end.

Definition to_datetime (col : list cell) : result (list cell) :=
  mapM to_datetime_scalar col.

(** [load_data], lines 16 to 24. *)
Definition load_data (fs : filesystem) (csv_path : string) : result DataFrame :=
  df <- read_csv fs csv_path ;;
  date <- getitem df "Date" ;;
  parsed <- to_datetime date ;;
  df <- setitem df "Date" parsed ;;
  drop df "Average_Price_SA".

(** ** Queries on the loaded frame *)

(** [Series.unique]: a hash table of the values seen so far; a value is
    emitted the first time it is met.  All missing values count as one. *)
Fixpoint unique_from (seen col : list cell) : list cell :=
  match col with
  | [] => []
  | c :: t =>
      if existsb (cell_eqb c) seen
      then unique_from seen t
      else c :: unique_from (c :: seen) t
  end.

Definition unique (col : list cell) : list cell := unique_from [] col.

(** [col == v], element by element. *)
Definition series_eq (col : list cell) (v : cell) : list bool :=
  map (fun c => elem_eq c v) col.

(** [df[mask]]: the rows whose mask entry is true, in order, as a new frame. *)
Definition boolean_index (df : DataFrame) (mask : list bool) : DataFrame :=
  mkDataFrame (columns df) (map fst (filter snd (combine (values df) mask))).

(** The greater of two values of one kind, by Python's [<]; values of
    different kinds do not compare. *)
Definition cell_max (a b : cell) : result cell :=
  match a, b with
  | Timestamp x, Timestamp y => ret (Timestamp (Z.max x y))
  | Number x, Number y => ret (Number (Z.max x y))
  | Text s, Text t => ret (if String.ltb s t then Text t else Text s)
  | _, _ => raise TypeError
  end.

Fixpoint max_from (acc : cell) (col : list cell) : result cell :=
  match col with
  | [] => ret acc
  | c :: t => m <- cell_max acc c ;; max_from m t
  end.

(** [Series.max] with the default [skipna=True]: missing values are left
    out, and a series without any value yields the missing value. *)
Definition series_max (col : list cell) : result cell :=
  match filter notna col with
  | [] => ret NA
  | c :: t => max_from c t
  end.

(** numpy's [argsort] of kind quicksort on an array without missing values:
    positions that put the array in ascending order. *)
Variable argsort : list cell -> result (list nat).

Definition take {A : Type} (d : A) (l : list A) (indexer : list nat) : list A :=
  map (fun i => nth i l d) indexer.

(** [pandas.core.sorting.nargsort] with [na_position='last']. *)
Definition nargsort (items : list cell) (ascending : bool) : result (list nat) :=
  let keyed := combine (seq 0 (List.length items)) items in
  let present := filter (fun p => notna (snd p)) keyed in
  let nan_idx := map fst (filter (fun p => isna (snd p)) keyed) in
  let non_nans := map snd present in
  let non_nan_idx := map fst present in
  let non_nans := if ascending then non_nans else rev non_nans in
  let non_nan_idx := if ascending then non_nan_idx else rev non_nan_idx in
  order <- argsort non_nans ;;
  let indexer := take 0%nat non_nan_idx order in
  let indexer := if ascending then indexer else rev indexer in
  ret (indexer ++ nan_idx).

(** [df.sort_values(by=by, ascending=ascending)]: a new frame. *)
Definition sort_values (df : DataFrame) (by_ : string) (ascending : bool) : result DataFrame :=
  items <- getitem df by_ ;;
  indexer <- nargsort items ascending ;;
  ret (mkDataFrame (columns df) (take [] (values df) indexer)).

(** [df.head(n)]. *)
Definition head (df : DataFrame) (n : nat) : DataFrame :=
  mkDataFrame (columns df) (firstn n (values df)).

(** [df.describe()]: which dtypes count as numeric and how the figures are
    computed is left to pandas; the frame falls back to all columns when
    none is selected, and a frame without columns is refused. *)
Variable numeric_dtype : list cell -> bool.
Variable summarize : list cell -> stats.

Definition column_at (df : DataFrame) (j : nat) : list cell :=
  map (at_loc j) (values df).

Definition named_columns (df : DataFrame) : list (string * list cell) :=
  map (fun lj => (fst lj, column_at df (snd lj)))
      (combine (columns df) (seq 0 (List.length (columns df)))).

Definition describe (df : DataFrame) : result (list (string * stats)) :=
  match columns df with
  | [] => raise (ValueError "Cannot describe a DataFrame without columns")
  | _ =>
      let selected := filter (fun lc => numeric_dtype (snd lc)) (named_columns df) in
      let data := match selected with
                  | [] => named_columns df
                  | _ => selected
                  end in
      ret (map (fun lc => (fst lc, summarize (snd lc))) data)
  end.

(** The six queries of the script on the cleaned frame. *)

(** Line 59. *)
Definition uniqueRegions (df : DataFrame) : result (list cell) :=
  col <- getitem df "Region_Name" ;;
  ret (unique col).

(** Line 69. *)
Definition filterByRegion (df : DataFrame) (selected_region : cell) : result DataFrame :=
  col <- getitem df "Region_Name" ;;
  ret (boolean_index df (series_eq col selected_region)).

(** Line 93. *)
Definition latestDate (df : DataFrame) : result cell :=
  col <- getitem df "Date" ;;
  series_max col.

(** Line 98. *)
Definition rowsAtDate (df : DataFrame) (date : cell) : result DataFrame :=
  col <- getitem df "Date" ;;
  ret (boolean_index df (series_eq col date)).

(** Line 101. *)
Definition topNByPrice (df : DataFrame) (n : nat) : result DataFrame :=
  sorted <- sort_values df "Average_Price" false ;;
  ret (head sorted n).

(** Line 52. *)
Definition summaryStatistics (df : DataFrame) : result (list (string * stats)) :=
  describe df.

(** ** The script: objects, user interface and control flow

    Frames are Python objects.  The session keeps them in a store addressed
    by position and records every Streamlit call in order. *)

(** An Altair chart as the script builds it: the frame it draws, its mark,
    the columns its channels and tooltips name, and the value its title
    embeds. *)
Inductive mark : Type :=
| mark_line
| mark_bar.

Record Chart : Type := mkChart {
  chart_data : DataFrame;
  chart_mark : mark;
  encode_x : string;
  encode_y : string;
  encode_tooltip : list string;
  chart_title : cell
}.

(** Lines 74 to 83. *)
Definition time_series_chart (df_region : DataFrame) (selected_region : cell) : Chart :=
  mkChart df_region mark_line "Date" "Average_Price" ["Date"; "Average_Price"]
    selected_region.

(** Lines 104 to 114. *)
Definition bar_chart (df_top_10 : DataFrame) (day : cell) : Chart :=
  mkChart df_top_10 mark_bar "Average_Price" "Region_Name"
    ["Region_Name"; "Average_Price"] day.

(** The columns a chart needs in its data: every channel of the script
    names its column without a type, which Altair then infers from the
    column. *)
Definition encoded_fields (c : Chart) : list string :=
  encode_x c :: encode_y c :: encode_tooltip c.

Inductive event : Type :=
| st_set_page_config
| st_error (message : string)
| st_title
| st_header (text : string)
| st_subheader (text : string) (value : cell)
| st_write (text : string)
| st_write_shape (size : nat * nat)
| st_dataframe (data : DataFrame)
| st_write_statistics (table : list (string * stats))
| st_selectbox (options : list cell) (index : nat)
| st_altair_chart (chart : Chart).

Record session : Type := mkSession {
  heap : list DataFrame;
  ui : list event
}.

Definition script (A : Type) : Type := session -> result A * session.

Definition unit_script {A : Type} (a : A) : script A := fun s => (inr a, s).

Definition bind_script {A B : Type} (m : script A) (k : A -> script B) : script B :=
  fun s =>
    match m s with
    | (inl e, s') => (inl e, s')
    | (inr a, s') => k a s'
    end.

Declare Scope script_scope.
Delimit Scope script_scope with script.
Notation "x <- m ;; k" := (bind_script m (fun x => k))
  (at level 61, m at next level, right associativity) : script_scope.
Notation "m ;; k" := (bind_script m (fun _ => k))
  (at level 61, right associativity) : script_scope.

Definition lift {A : Type} (r : result A) : script A := fun s => (r, s).

Definition emit (e : event) : script unit :=
  fun s => (inr tt, mkSession (heap s) (ui s ++ [e])).

Definition empty_frame : DataFrame := mkDataFrame [] [].

Definition frame_at (a : nat) : script DataFrame :=
  fun s => (inr (nth a (heap s) empty_frame), s).

Definition new_frame (df : DataFrame) : script nat :=
  fun s => (inr (List.length (heap s)), mkSession (heap s ++ [df]) (ui s)).

(** An object is replaced in place: what an assignment to a column and
    the [inplace=True] form of a method do to the frame they are called on.
    Every name bound to the object sees the new contents. *)
Definition put_frame (a : nat) (df : DataFrame) : script unit :=
  fun s => (inr tt, mkSession (set_nth a df (heap s)) (ui s)).

(** A method called on what another method returned: the in-place forms
    return [None], which has no methods. *)
Definition on_object {A : Type} (receiver : option nat) (method : nat -> script A)
    : script A :=
  match receiver with
  | Some a => method a
  | None => lift (raise AttributeError)
  end.

(** The pandas methods of the script, on objects of the store. *)

(** [df[key]]. *)
Definition DataFrame_getitem (a : nat) (key : string) : script (list cell) :=
  (df <- frame_at a ;; lift (getitem df key))%script.

(** [df[mask]]: a new object. *)
Definition DataFrame_getitem_mask (a : nat) (mask : list bool) : script nat :=
  (df <- frame_at a ;; new_frame (boolean_index df mask))%script.

(** [df[key] = value]: the object itself changes. *)
Definition DataFrame_setitem (a : nat) (key : string) (value : list cell) : script unit :=
  (df <- frame_at a ;;
   changed <- lift (setitem df key value) ;;
   put_frame a changed)%script.

(** [df.drop(columns=[label], inplace=inplace)]. *)
Definition DataFrame_drop (a : nat) (label : string) (inplace : bool)
    : script (option nat) :=
  (df <- frame_at a ;;
   out <- lift (drop df label) ;;
   if inplace
   then put_frame a out ;; unit_script None
   else b <- new_frame out ;; unit_script (Some b))%script.

(** [df.sort_values(by=by, ascending=ascending, inplace=inplace)]. *)
Definition DataFrame_sort_values (a : nat) (by_ : string) (ascending inplace : bool)
    : script (option nat) :=
  (df <- frame_at a ;;
   out <- lift (sort_values df by_ ascending) ;;
   if inplace
   then put_frame a out ;; unit_script None
   else b <- new_frame out ;; unit_script (Some b))%script.

(** [df.head(n)]: a new object. *)
Definition DataFrame_head (a : nat) (n : nat) : script nat :=
  (df <- frame_at a ;; new_frame (head df n))%script.

(** [df.describe()]. *)
Definition DataFrame_describe (a : nat) : script (list (string * stats)) :=
  (df <- frame_at a ;; lift (describe df))%script.

(** [st.altair_chart(chart)]: the chart is turned into its specification
    when it is shown, and Altair raises [ValueError] for a channel whose
    column the data does not have, as it cannot tell its type. *)
Definition altair_chart (c : Chart) : script unit :=
  if forallb (fun field => mem_string field (columns (chart_data c))) (encoded_fields c)
  then emit (st_altair_chart c)
  else lift (raise (ValueError "Unable to determine data type for the field")).

(** [st.stop()] ends the run by raising inside the script. *)
Definition st_stop {A : Type} : script A := fun s => (inl StopException, s).

Definition try_except {A : Type} (body : script A) (caught : exn -> bool)
    (handler : script A) : script A :=
  fun s =>
    match body s with
    | (inl e, s') => if caught e then handler s' else (inl e, s')
    | (inr a, s') => (inr a, s')
    end.

Definition is_FileNotFoundError (e : exn) : bool :=
  match e with
  | FileNotFoundError => true
  | _ => false
  end.

(** The queries as the script runs them: each is a chain of pandas
    methods called on the object behind [df_cleaned], and binds its result
    to a name of its own. *)

(** Line 59: [df_cleaned['Region_Name'].unique()]. *)
Definition all_regions (df_cleaned : nat) : script (list cell) :=
  (region_names <- DataFrame_getitem df_cleaned "Region_Name" ;;
   unit_script (unique region_names))%script.

(** Line 69: [df_cleaned[df_cleaned['Region_Name'] == selected_region]]. *)
Definition df_region (df_cleaned : nat) (selected_region : cell) : script nat :=
  (region_names <- DataFrame_getitem df_cleaned "Region_Name" ;;
   DataFrame_getitem_mask df_cleaned (series_eq region_names selected_region))%script.

(** Line 93: [df_cleaned['Date'].max()]. *)
Definition latest_date (df_cleaned : nat) : script cell :=
  (dates <- DataFrame_getitem df_cleaned "Date" ;;
   lift (series_max dates))%script.

(** Line 98: [df_cleaned[df_cleaned['Date'] == latest_date]]. *)
Definition df_latest (df_cleaned : nat) (date : cell) : script nat :=
  (dates <- DataFrame_getitem df_cleaned "Date" ;;
   DataFrame_getitem_mask df_cleaned (series_eq dates date))%script.

(** Line 101: [.sort_values(by='Average_Price', ascending=False).head(n)];
    [inplace] is left at its default. *)
Definition df_top_10 (df_latest : nat) (n : nat) : script nat :=
  (sorted <- DataFrame_sort_values df_latest "Average_Price" false false ;;
   on_object sorted (fun a => DataFrame_head a n))%script.

Inductive query : Type :=
| FilterByRegion (regionName : cell)
| RowsAtDate (date : cell)
| TopNByPrice (n : nat)
| UniqueRegions
| LatestDate
| SummaryStatistics.

Inductive answer : Type :=
| Frame (address : nat)
| Cells (items : list cell)
| Scalar (item : cell)
| Statistics (table : list (string * stats)).

Definition run_query (df_cleaned : nat) (q : query) : script answer :=
  (match q with
   | FilterByRegion r => a <- df_region df_cleaned r ;; unit_script (Frame a)
   | RowsAtDate d => a <- df_latest df_cleaned d ;; unit_script (Frame a)
   | TopNByPrice n => a <- df_top_10 df_cleaned n ;; unit_script (Frame a)
   | UniqueRegions => out <- all_regions df_cleaned ;; unit_script (Cells out)
   | LatestDate => out <- latest_date df_cleaned ;; unit_script (Scalar out)
   | SummaryStatistics =>
       out <- DataFrame_describe df_cleaned ;; unit_script (Statistics out)
   end)%script.

(** A sequence of queries; a query that raises leaves the rest to run, as
    each interaction reruns the script on the same cached frame. *)
Fixpoint run_queries (df_cleaned : nat) (qs : list query) (s : session) : session :=
  match qs with
  | [] => s
  | q :: rest => run_queries df_cleaned rest (snd (run_query df_cleaned q s))
  end.

Record widgets : Type := mkWidgets {
  show_raw_data : bool;
  region_choice : option nat
}.

Definition csv_path : string := "Average-prices-2025-06.csv".

Definition not_found_message : string :=
  "Error: 'Average-prices-2025-06.csv' not found. Make sure it's in the same folder as app.py.".

(** [list(all_regions).index(v)]. *)
Fixpoint index_of (v : cell) (l : list cell) : result nat :=
  match l with
  | [] => raise (ValueError "is not in list")
  | c :: t => if cell_eqb c v then ret 0%nat else i <- index_of v t ;; ret (S i)
  end.

(** [latest_date.date()]: defined on timestamps and on NaT. *)
Definition date_of (c : cell) : result cell :=
  match c with
  | Timestamp t => ret (Timestamp t)
  | NA => ret NA
  | _ => raise AttributeError
  end.

(** [load_data] as it runs, lines 18 to 24, on objects: the frame that
    [read_csv] builds is changed in place by the assignment to its [Date]
    column, and [drop] returns a new object, which is what the script binds
    to [df_cleaned]. *)
Definition load_data_run (fs : filesystem) (path : string) : script nat :=
  (raw <- lift (read_csv fs path) ;;
   df <- new_frame raw ;;
   date <- DataFrame_getitem df "Date" ;;
   parsed <- lift (to_datetime date) ;;
   DataFrame_setitem df "Date" parsed ;;
   dropped <- DataFrame_drop df "Average_Price_SA" false ;;
   on_object dropped unit_script)%script.

(** Lines 28 to 32: the load and its handler. *)
Definition startup (fs : filesystem) : script nat :=
  (try_except
     (load_data_run fs csv_path)
     is_FileNotFoundError
     (emit (st_error not_found_message) ;; st_stop))%script.

(** Lines 38 to 117: the three sections of the page. *)
Definition render (w : widgets) (df_cleaned : nat) : script unit :=
  (emit st_title ;;
   emit (st_write "This interactive app analyzes average house prices from 1968 to 2025.") ;;
   emit (st_header "1. Data Overview") ;;
   (if show_raw_data w
    then df <- frame_at df_cleaned ;;
         emit (st_write_shape (shape df)) ;;
         emit (st_dataframe df)
    else unit_script tt) ;;
   emit (st_subheader "Summary Statistics" NA) ;;
   emit (st_write "Descriptive statistics for the main numerical columns:") ;;
   table <- DataFrame_describe df_cleaned ;;
   emit (st_write_statistics table) ;;
   emit (st_header "2. Price Trends Over Time") ;;
   regions <- all_regions df_cleaned ;;
   default <- lift (index_of (Text "United Kingdom") regions) ;;
   emit (st_selectbox regions default) ;;
   let chosen := match region_choice w with
                 | Some i => if (i <? List.length regions)%nat then i else default
                 | None => default
                 end in
   let selected_region := nth chosen regions NA in
   region <- df_region df_cleaned selected_region ;;
   emit (st_subheader "Average Price in" selected_region) ;;
   shown <- frame_at region ;;
   altair_chart (time_series_chart shown selected_region) ;;
   emit (st_header "3. Regional Price Comparison") ;;
   latest <- latest_date df_cleaned ;;
   day <- lift (date_of latest) ;;
   emit (st_subheader "Top 10 Most Expensive Regions on" day) ;;
   slice <- df_latest df_cleaned latest ;;
   top <- df_top_10 slice 10 ;;
   day <- lift (date_of latest) ;;
   shown <- frame_at top ;;
   altair_chart (bar_chart shown day))%script.

(** The whole script, top to bottom. *)
Definition app (fs : filesystem) (w : widgets) : script unit :=
  (emit st_set_page_config ;;
   df_cleaned <- startup fs ;;
   render w df_cleaned)%script.

(** A step that leaves every object of the store as it was and at most
    adds new ones. *)
Definition grows {A : Type} (p : script A) : Prop :=
  forall s, exists added, heap (snd (p s)) = heap s ++ added.

Inductive outcome : Type :=
| Completed
| Halted
| Uncaught (e : exn).

Definition empty_session : session := mkSession [] [].

(** One run of the script: how it ends and what the page shows. *)
Definition run (p : script unit) : outcome * list event :=
  match p empty_session with
  | (inr _, s) => (Completed, ui s)
  | (inl StopException, s) => (Halted, ui s)
  | (inl e, s) => (Uncaught e, ui s)
  end.

End DataLayer.

(** ** What the sort is asked to deliver

    numpy documents quicksort as a sort that is not stable: the positions it
    returns order the keys, and say nothing about equal keys. *)

Definition is_number (c : cell) : bool :=
  match c with
  | Number _ => true
  | _ => false
  end.

Definition cell_ltb (a b : cell) : bool :=
  match a, b with
  | Number x, Number y => (x <? y)%Z
  | Timestamp x, Timestamp y => (x <? y)%Z
  | Text s, Text t => String.ltb s t
  | _, _ => false
  end.

Definition not_above (a b : cell) : Prop := cell_ltb b a = false.

Definition argsort_sorts (argsort : list cell -> result (list nat)) : Prop :=
  forall xs,
    forallb is_number xs = true ->
    exists order,
      argsort xs = inr order /\
      Permutation order (seq 0 (List.length xs)) /\
      StronglySorted not_above (take NA xs order).

(** A sort that meets it, by insertion on (position, key) pairs: it keeps
    equal keys in their order of arrival. *)
Definition key_of (c : cell) : Z :=
  match c with
  | Number z => z
  | Timestamp t => t
  | _ => 0%Z
  end.

Fixpoint insert_pair (before : Z -> Z -> bool) (p : nat * Z) (l : list (nat * Z))
    : list (nat * Z) :=
  match l with
  | [] => [p]
  | q :: t => if before (snd p) (snd q) then p :: q :: t else q :: insert_pair before p t
  end.

Fixpoint insertion_sort (before : Z -> Z -> bool) (l : list (nat * Z)) : list (nat * Z) :=
  match l with
  | [] => []
  | p :: t => insert_pair before p (insertion_sort before t)
  end.

Definition argsort_by (before : Z -> Z -> bool) (xs : list cell) : result (list nat) :=
  if forallb is_number xs
  then ret (map fst (insertion_sort before
                       (combine (seq 0 (List.length xs)) (map key_of xs))))
  else raise TypeError.

Definition argsort_stable : list cell -> result (list nat) := argsort_by Z.leb.


(** ** numpy's quicksort

    [argsort] of kind quicksort as numpy's portable routine has it
    ([aquicksort_] and [aheapsort_] of npysort): an introsort on an array of
    positions, [tosort], over the keys [v].  Pointers into [tosort] are
    positions; a loop of the C code is a function with the number of
    iterations it may take at most.  Builds of numpy for processors with
    vector instructions may hand 64-bit keys to a vectorized sort instead,
    which orders equal keys in its own way. *)

Definition SMALL_QUICKSORT : nat := 16.

(** [npy_get_msb]. *)
Definition npy_get_msb (unum : nat) : Z := Z.of_nat (Nat.log2 unum).

Section Npysort.

Variable v : list Z.

(** [v[*p]]. *)
Definition key_at (tosort : list nat) (p : nat) : Z := nth (nth p tosort 0%nat) v 0%Z.

(** [INTP_SWAP] of the entries at [p] and [q]. *)
Definition INTP_SWAP (tosort : list nat) (p q : nat) : list nat :=
  set_nth p (nth q tosort 0%nat) (set_nth q (nth p tosort 0%nat) tosort).

(** The three compare-and-swap steps that leave the median at [pm]. *)
Definition median_of_three (tosort : list nat) (pl pm pr : nat) : list nat :=
  let tosort := if (key_at tosort pm <? key_at tosort pl)%Z
                then INTP_SWAP tosort pm pl else tosort in
  let tosort := if (key_at tosort pr <? key_at tosort pm)%Z
                then INTP_SWAP tosort pr pm else tosort in
  if (key_at tosort pm <? key_at tosort pl)%Z then INTP_SWAP tosort pm pl else tosort.

(** [do { ++pi; } while (less(v[*pi], vp));] *)
Fixpoint scan_up (steps : nat) (tosort : list nat) (vp : Z) (pi : nat) : nat :=
  match steps with
  | O => S pi
  | S steps' =>
      if (key_at tosort (S pi) <? vp)%Z then scan_up steps' tosort vp (S pi) else S pi
  end.

(** [do { --pj; } while (less(vp, v[*pj]));] *)
Fixpoint scan_down (tosort : list nat) (vp : Z) (pj : nat) : nat :=
  match pj with
  | O => O
  | S pj' => if (vp <? key_at tosort pj')%Z then scan_down tosort vp pj' else pj'
  end.

(** The partition loop: the position where the scans met, and the array. *)
Fixpoint partition (steps : nat) (tosort : list nat) (vp : Z) (pi pj : nat)
    : list nat * nat :=
  match steps with
  | O => (tosort, pi)
  | S steps' =>
      let pi := scan_up (List.length tosort) tosort vp pi in
      let pj := scan_down tosort vp pj in
      if (pj <=? pi)%nat then (tosort, pi)
      else partition steps' (INTP_SWAP tosort pi pj) vp pi pj
  end.

(** The inner loop of the insertion sort:
    [while (pj > pl && less(vp, v[*pk])) { *pj-- = *pk--; } *pj = vi;] *)
Fixpoint shift (tosort : list nat) (pl vi : nat) (vp : Z) (pj : nat) : list nat :=
  match pj with
  | O => set_nth O vi tosort
  | S pk =>
      if (pl <? pj)%nat && (vp <? key_at tosort pk)%Z
      then shift (set_nth pj (nth pk tosort 0%nat) tosort) pl vi vp pk
      else set_nth pj vi tosort
  end.

(** [for (pi = pl + 1; pi <= pr; ++pi)], with the iterations left to go. *)
Fixpoint insertion (left : nat) (tosort : list nat) (pl pi : nat) : list nat :=
  match left with
  | O => tosort
  | S left' =>
      let vi := nth pi tosort 0%nat in
      insertion left' (shift tosort pl vi (nth vi v 0%Z) pi) pl (S pi)
  end.

(** [aheapsort_] on the [n] positions from [base] on; [a] is the array
    offset by one. *)
Definition a_get (tosort : list nat) (base k : nat) : nat :=
  nth (base + k - 1) tosort 0%nat.

Definition a_set (tosort : list nat) (base k : nat) (x : nat) : list nat :=
  set_nth (base + k - 1) x tosort.

(** [for (...; j <= n;) { ... } a[i] = tmp;] *)
Fixpoint sift (steps : nat) (tosort : list nat) (base n tmp i j : nat) : list nat :=
  match steps with
  | O => a_set tosort base i tmp
  | S steps' =>
      if (j <=? n)%nat
      then
        let j := if (j <? n)%nat
                    && (nth (a_get tosort base j) v 0 <? nth (a_get tosort base (S j)) v 0)%Z
                 then S j else j in
        if (nth tmp v 0 <? nth (a_get tosort base j) v 0)%Z
        then sift steps' (a_set tosort base i (a_get tosort base j)) base n tmp j (j + j)
        else a_set tosort base i tmp
      else a_set tosort base i tmp
  end.

(** [for (l = n >> 1; l > 0; --l)]. *)
Fixpoint heapify (l : nat) (tosort : list nat) (base n : nat) : list nat :=
  match l with
  | O => tosort
  | S l' =>
      heapify l' (sift n tosort base n (a_get tosort base l) l (l + l)) base n
  end.

(** [for (; n > 1;)]. *)
Fixpoint sortdown (n : nat) (tosort : list nat) (base : nat) : list nat :=
  match n with
  | O => tosort
  | S O => tosort
  | S n' =>
      let tmp := a_get tosort base n in
      let tosort := a_set tosort base n (a_get tosort base 1) in
      sortdown n' (sift n tosort base n' tmp 1 2) base
  end.

Definition aheapsort (tosort : list nat) (base n : nat) : list nat :=
  sortdown n (heapify (n / 2) tosort base n) base.

(** The loop of [aquicksort_].  [popped] tells that the range has just
    been taken from the stack, or is the whole array: only then is the depth
    looked at; while a range is longer than [SMALL_QUICKSORT] it is
    partitioned, the larger part is pushed with the depth, and the smaller
    part is gone on with. *)
Fixpoint aquicksort_loop (steps : nat) (tosort : list nat) (pl pr : nat) (cdepth : Z)
    (stack : list (nat * nat * Z)) (popped : bool) : list nat :=
  match steps with
  | O => tosort
  | S steps' =>
      let stack_pop tosort :=
        match stack with
        | [] => tosort
        | (pl', pr', cdepth') :: stack' =>
            aquicksort_loop steps' tosort pl' pr' cdepth' stack' true
        end in
      if popped && (cdepth <? 0)%Z
      then stack_pop (aheapsort tosort pl (S pr - pl))
      else if (SMALL_QUICKSORT <? pr - pl)%nat
      then
        let pm := (pl + (pr - pl) / 2)%nat in
        let tosort := median_of_three tosort pl pm pr in
        let vp := key_at tosort pm in
        let tosort := INTP_SWAP tosort pm (pr - 1) in
        let '(tosort, pi) := partition (List.length tosort) tosort vp pl (pr - 1) in
        let tosort := INTP_SWAP tosort pi (pr - 1) in
        if (pi - pl <? pr - pi)%nat
        then aquicksort_loop steps' tosort pl (pi - 1) (cdepth - 1)
               ((S pi, pr, (cdepth - 1)%Z) :: stack) false
        else aquicksort_loop steps' tosort (S pi) pr (cdepth - 1)
               ((pl, (pi - 1)%nat, (cdepth - 1)%Z) :: stack) false
      else stack_pop (insertion (pr - pl) tosort pl (S pl))
  end.

End Npysort.

(** [aquicksort_] on the positions [0 .. num - 1]: every step of the loop
    either splits a range or finishes one, so twice the length and one are
    steps enough. *)
Definition aquicksort (v : list Z) : list nat :=
  let num := List.length v in
  aquicksort_loop v (2 * num + 1) (seq 0 num) 0 (num - 1) (2 * npy_get_msb num) [] true.

Definition argsort_quicksort (xs : list cell) : result (list nat) :=
  if forallb is_number xs
  then ret (aquicksort (map key_of xs))
  else raise TypeError.

(** ** Reference parsers, used to run the script on concrete files *)

Definition digit_value (c : ascii) : option Z :=
  let n := nat_of_ascii c in
  if ((48 <=? n) && (n <=? 57))%nat then Some (Z.of_nat (n - 48)) else None.

Fixpoint digits_from (acc : Z) (s : string) : option Z :=
  match s with
  | EmptyString => Some acc
  | String c rest =>
      match digit_value c with
      | Some d => digits_from (10 * acc + d)%Z rest
      | None => None
      end
  end.

(** Unsigned decimal integers. *)
Definition decimal_number (s : string) : option Z :=
  match s with
  | EmptyString => None
  | _ => digits_from 0%Z s
  end.

Definition leap_year (y : Z) : bool :=
  ((y mod 4 =? 0) && (negb (y mod 100 =? 0) || (y mod 400 =? 0)))%Z.

Definition days_in_month (y m : Z) : Z :=
  if (m =? 2)%Z then (if leap_year y then 29 else 28)%Z
  else if ((m =? 4) || (m =? 6) || (m =? 9) || (m =? 11))%Z then 30%Z
  else 31%Z.

(** Days between 1970-01-01 and the given civil date. *)
Definition days_from_civil (y m d : Z) : Z :=
  let y' := (if m <=? 2 then y - 1 else y)%Z in
  let era := (y' / 400)%Z in
  let yoe := (y' - era * 400)%Z in
  let mp := (if m <=? 2 then m + 9 else m - 3)%Z in
  let doy := ((153 * mp + 2) / 5 + d - 1)%Z in
  let doe := (yoe * 365 + yoe / 4 - yoe / 100 + doy)%Z in
  (era * 146097 + doe - 719468)%Z.

Definition nanoseconds_per_day : Z := 86400000000000%Z.

(** Dates written YYYY-MM-DD, as nanoseconds since the epoch. *)
Definition iso_date (s : string) : option Z :=
  if negb (String.length s =? 10)%nat then None
  else if negb (String.eqb (substring 4 1 s) "-" && String.eqb (substring 7 1 s) "-")
  then None
  else
    match decimal_number (substring 0 4 s),
          decimal_number (substring 5 2 s),
          decimal_number (substring 8 2 s) with
    | Some y, Some m, Some d =>
        if ((1 <=? m) && (m <=? 12) && (1 <=? d) && (d <=? days_in_month y m))%Z
        then Some (days_from_civil y m d * nanoseconds_per_day)%Z
        else None
    | _, _, _ => None
    end.

(** A summary that only fills in the count of the values present. *)
Definition count_present (col : list cell) : stats :=
  [Number (Z.of_nat (List.length (filter notna col))); NA; NA; NA; NA; NA; NA; NA].

Definition all_numbers (col : list cell) : bool :=
  forallb (fun c => isna c || is_number c) col.

(** The sample of section 8 of the specification, as a file. *)
Definition sample_header : list string :=
  ["Date"; "Region_Name"; "Average_Price"; "Average_Price_SA"].

Definition sample_records : list (list string) :=
  [["2024-01-01"; "London"; "500000"; ""];
   ["2024-01-01"; "York"; "300000"; ""];
   ["2024-02-01"; "London"; "510000"; ""]].

Definition one_file (header : list string) (records : list (list string)) : filesystem :=
  fun path => if String.eqb path csv_path then Content header records else NoEntry.

Definition sample_fs : filesystem := one_file sample_header sample_records.

Definition no_file : filesystem := fun _ => NoEntry.

Definition locked_file : filesystem :=
  fun path => if String.eqb path csv_path then Denied else NoEntry.

Definition sample_frame : DataFrame :=
  mkDataFrame ["Date"; "Region_Name"; "Average_Price"]
    [[Timestamp 1704067200000000000; Text "London"; Number 500000];
     [Timestamp 1704067200000000000; Text "York"; Number 300000];
     [Timestamp 1706745600000000000; Text "London"; Number 510000]].

(** ** The specification's wording, for comparison *)

(** Values in first-occurrence order: position [i] is listed when no
    earlier position holds the same value. *)
Definition first_occurrences (col : list cell) : list cell :=
  map snd
    (filter (fun p => negb (existsb (cell_eqb (snd p)) (firstn (fst p) col)))
       (combine (seq 0 (List.length col)) col)).

(** Rows whose cell in column [j] is exactly the given string. *)
Definition region_is (j : nat) (regionName : string) (row : list cell) : bool :=
  cell_eqb (at_loc j row) (Text regionName).

(** Rows whose cell in column [j] equals the given date. *)
Definition date_is (j : nat) (date : cell) (row : list cell) : bool :=
  elem_eq (at_loc j row) date.

(** The slices at each distinct value of the [Date] column, one after the
    other. *)
Definition slices (df : DataFrame) : result (list (list cell)) :=
  col <- getitem df "Date" ;;
  parts <- mapM (rowsAtDate df) (unique col) ;;
  ret (List.concat (map values parts)).

Definition dated (j : nat) (row : list cell) : bool := notna (at_loc j row).

(** A file with one line whose date field is empty and one whose date
    field reads n/a, and the frame it loads to. *)
Definition undated_records : list (list string) :=
  [[""; "London"; "500000"; "499000"];
   ["n/a"; "York"; "300000"; "299000"]].

Definition undated_fs : filesystem := one_file sample_header undated_records.

Definition undated_frame : DataFrame :=
  mkDataFrame ["Date"; "Region_Name"; "Average_Price"]
    [[NA; Text "London"; Number 500000];
     [NA; Text "York"; Number 300000]].

(** A cell of a datetime column: a timestamp or NaT. *)
Definition is_datetime (c : cell) : bool :=
  match c with
  | Timestamp _ | NA => true
  | _ => false
  end.

(** A file with a header and no data line, and the frame it loads to. *)
Definition header_only_fs : filesystem := one_file sample_header [].

Definition no_rows : DataFrame :=
  mkDataFrame ["Date"; "Region_Name"; "Average_Price"] [].

(** A file that never had the seasonally adjusted column. *)
Definition unadjusted_header : list string := ["Date"; "Region_Name"; "Average_Price"].

Definition unadjusted_records : list (list string) :=
  [["2024-01-01"; "London"; "500000"]; ["2024-01-01"; "York"; "300000"]].

Definition unadjusted_fs : filesystem := one_file unadjusted_header unadjusted_records.

(** A file with a date field that is no date. *)
Definition bad_date_record : list string := ["yesterday"; "York"; "300000"; "299000"].

Definition bad_date_records : list (list string) :=
  [["2024-01-01"; "London"; "500000"; "499000"]; bad_date_record].

Definition bad_date_fs : filesystem := one_file sample_header bad_date_records.

(** The frame [load_data] returns, from the rows as read, the position
    of the [Date] column and the parsed dates. *)
Definition cleaned (header : list string) (rows : list (list cell)) (j : nat)
    (parsed : list cell) : DataFrame :=
  mkDataFrame
    (filter (other_label "Average_Price_SA") header)
    (map (drop_cells "Average_Price_SA" header)
       (zip_with (fun row v => set_nth j v row) rows parsed)).

(** Descending order of prices with the missing ones last: [a] may stand
    before [b]. *)
Definition comes_before (a b : cell) : Prop :=
  match a, b with
  | _, NA => True
  | NA, _ => False
  | _, _ => cell_ltb a b = false
  end.

(** The stable order the specification asks for: a row goes behind the
    rows that outrank it and ahead of every other row it came before. *)
Definition outranks (j : nat) (x r : list cell) : bool :=
  match at_loc j x, at_loc j r with
  | NA, _ => false
  | _, NA => true
  | a, b => cell_ltb b a
  end.

Fixpoint insert_row (j : nat) (r : list cell) (l : list (list cell)) : list (list cell) :=
  match l with
  | [] => [r]
  | x :: t => if outranks j x r then x :: insert_row j r t else r :: x :: t
  end.

Definition stable_descending (j : nat) (rows : list (list cell)) : list (list cell) :=
  fold_right (insert_row j) [] rows.

Definition spec_topNByPrice (j : nat) (rows : list (list cell)) (n : nat)
    : list (list cell) :=
  firstn n (stable_descending j rows).

(** Two regions at one price on one day. *)
Definition london_row : list cell :=
  [Timestamp 1706745600000000000; Text "London"; Number 300000].

Definition york_row : list cell :=
  [Timestamp 1706745600000000000; Text "York"; Number 300000].

Definition tie_frame : DataFrame :=
  mkDataFrame ["Date"; "Region_Name"; "Average_Price"] [london_row; york_row].

(** Forty regions on one day, at three prices: every second one at the
    highest. *)
Definition priced_row (region : string * Z) : list cell :=
  [Timestamp 1706745600000000000; Text (fst region); Number (snd region)].

Definition tied_regions : list (string * Z) :=
    [("Area 01", 300000%Z);
     ("Area 02", 200000%Z);
     ("Area 03", 300000%Z);
     ("Area 04", 100000%Z);
     ("Area 05", 300000%Z);
     ("Area 06", 200000%Z);
     ("Area 07", 300000%Z);
     ("Area 08", 100000%Z);
     ("Area 09", 300000%Z);
     ("Area 10", 200000%Z);
     ("Area 11", 300000%Z);
     ("Area 12", 100000%Z);
     ("Area 13", 300000%Z);
     ("Area 14", 200000%Z);
     ("Area 15", 300000%Z);
     ("Area 16", 100000%Z);
     ("Area 17", 300000%Z);
     ("Area 18", 200000%Z);
     ("Area 19", 300000%Z);
     ("Area 20", 100000%Z);
     ("Area 21", 300000%Z);
     ("Area 22", 200000%Z);
     ("Area 23", 300000%Z);
     ("Area 24", 100000%Z);
     ("Area 25", 300000%Z);
     ("Area 26", 200000%Z);
     ("Area 27", 300000%Z);
     ("Area 28", 100000%Z);
     ("Area 29", 300000%Z);
     ("Area 30", 200000%Z);
     ("Area 31", 300000%Z);
     ("Area 32", 100000%Z);
     ("Area 33", 300000%Z);
     ("Area 34", 200000%Z);
     ("Area 35", 300000%Z);
     ("Area 36", 100000%Z);
     ("Area 37", 300000%Z);
     ("Area 38", 200000%Z);
     ("Area 39", 300000%Z);
     ("Area 40", 100000%Z)].

Definition tied_frame : DataFrame :=
  mkDataFrame ["Date"; "Region_Name"; "Average_Price"] (map priced_row tied_regions).

(** Whether two lists of rows are the same, cell for cell. *)
Fixpoint same_cells (a b : list cell) : bool :=
  match a, b with
  | [], [] => true
  | x :: a', y :: b' => cell_eqb x y && same_cells a' b'
  | _, _ => false
  end.

Fixpoint same_rows (a b : list (list cell)) : bool :=
  match a, b with
  | [], [] => true
  | x :: a', y :: b' => same_cells x y && same_rows a' b'
  | _, _ => false
  end.

Definition price_cell (c : cell) : bool := is_number c || isna c.

(** The sample with a row for the default region of the select box. *)
Definition uk_records : list (list string) :=
  sample_records ++ [["2024-02-01"; "United Kingdom"; "280000"; "279000"]].

(** Every row has one cell per column. *)
Definition rectangular (df : DataFrame) : Prop :=
  Forall (fun row => List.length row = List.length (columns df)) (values df).

Definition is_text (c : cell) : bool :=
  match c with
  | Text _ => true
  | _ => false
  end.

(** The page up to the summary statistics, which every run with a loaded
    frame renders. *)
Definition overview (w : widgets) (table : DataFrame) (stats_table : list (string * stats))
    : list event :=
  [st_set_page_config; st_title;
   st_write "This interactive app analyzes average house prices from 1968 to 2025.";
   st_header "1. Data Overview"]
  ++ (if show_raw_data w
      then [st_write_shape (shape table); st_dataframe table]
      else [])
  ++ [st_subheader "Summary Statistics" NA;
      st_write "Descriptive statistics for the main numerical columns:";
      st_write_statistics stats_table;
      st_header "2. Price Trends Over Time"].

(** The option the select box returns: the user's choice when it is one
    of the options, the default otherwise. *)
Definition chosen_region (w : widgets) (regions : list cell) (default : nat) : cell :=
  nth (match region_choice w with
       | Some i => if (i <? List.length regions)%nat then i else default
       | None => default
       end) regions NA.

(** The whole page of a run that completes. *)
Definition full_page (w : widgets) (table : DataFrame)
    (stats_table : list (string * stats)) (regions : list cell) (default : nat)
    (df_region : DataFrame) (day : cell) (top : DataFrame) : list event :=
  overview w table stats_table
  ++ [st_selectbox regions default;
      st_subheader "Average Price in" (chosen_region w regions default);
      st_altair_chart (time_series_chart df_region (chosen_region w regions default));
      st_header "3. Regional Price Comparison";
      st_subheader "Top 10 Most Expensive Regions on" day;
      st_altair_chart (bar_chart top day)].

(** The frame the sample with the default region loads to. *)
Definition uk_row : list cell :=
  [Timestamp 1706745600000000000; Text "United Kingdom"; Number 280000].

Definition uk_frame : DataFrame :=
  mkDataFrame (columns sample_frame) (values sample_frame ++ [uk_row]).

(** The page of a run that gets as far as the heading of the region's
    chart. *)
Definition page_before_chart (w : widgets) (table : DataFrame)
    (stats_table : list (string * stats)) (regions : list cell) (default : nat)
    : list event :=
  overview w table stats_table
  ++ [st_selectbox regions default;
      st_subheader "Average Price in" (chosen_region w regions default)].

(* ================================================================= *)
(** * Properties *)

Example load_sample :
  load_data decimal_number iso_date sample_fs csv_path = inr sample_frame.
Proof. vm_compute. reflexivity. Qed.

Example latest_sample : latestDate sample_frame = inr (Timestamp 1706745600000000000).
Proof. reflexivity. Qed.

Example first_day_sample :
  rowsAtDate sample_frame (Timestamp 1704067200000000000)
  = inr (mkDataFrame (columns sample_frame) (firstn 2 (values sample_frame))).
Proof. reflexivity. Qed.

Example top_sample :
  (latest <- rowsAtDate sample_frame (Timestamp 1706745600000000000) ;;
   topNByPrice argsort_stable latest 1)
  = inr (mkDataFrame (columns sample_frame)
           [[Timestamp 1706745600000000000; Text "London"; Number 510000]]).
Proof. reflexivity. Qed.

(** The sample has no row for the default region of the select box, so
    the run ends at line 65. *)
Example run_sample :
  fst (run (app decimal_number iso_date argsort_stable all_numbers count_present
              sample_fs (mkWidgets true None)))
  = Uncaught (ValueError "is not in list").
Proof. vm_compute. reflexivity. Qed.

Example run_uk :
  fst (run (app decimal_number iso_date argsort_stable all_numbers count_present
              (one_file sample_header uk_records) (mkWidgets true None)))
  = Completed.
Proof. vm_compute. reflexivity. Qed.

(** ** Cells *)

Lemma cell_eqb_eq (a b : cell) : cell_eqb a b = true <-> a = b.
Proof.
  destruct a, b; simpl; split; intro H; try discriminate; try reflexivity.
  - apply String.eqb_eq in H. now subst.
  - injection H as ->. apply String.eqb_refl.
  - apply Z.eqb_eq in H. now subst.
  - injection H as ->. apply Z.eqb_refl.
  - apply Z.eqb_eq in H. now subst.
  - injection H as ->. apply Z.eqb_refl.
Qed.

Lemma cell_eqb_refl (a : cell) : cell_eqb a a = true.
Proof. now apply cell_eqb_eq. Qed.

Lemma cell_eqb_sym (a b : cell) : cell_eqb a b = cell_eqb b a.
Proof.
  destruct (cell_eqb a b) eqn:E.
  - apply cell_eqb_eq in E. subst. symmetry. apply cell_eqb_refl.
  - destruct (cell_eqb b a) eqn:E'; [|reflexivity].
    apply cell_eqb_eq in E'. subst. now rewrite cell_eqb_refl in E.
Qed.

Lemma existsb_cell_eqb (c : cell) (l : list cell) :
  existsb (cell_eqb c) l = true <-> In c l.
Proof.
  rewrite existsb_exists. split.
  - intros (x & Hin & Heq). apply cell_eqb_eq in Heq. now subst.
  - intro Hin. exists c. split; [assumption | apply cell_eqb_refl].
Qed.

Lemma elem_eq_text (c : cell) (s : string) : elem_eq c (Text s) = cell_eqb c (Text s).
Proof. now destruct c. Qed.

Lemma elem_eq_true (c v : cell) : elem_eq c v = true <-> c = v /\ c <> NA.
Proof.
  destruct c; unfold elem_eq.
  - split; [discriminate | intros [_ H]; now elim H].
  - rewrite cell_eqb_eq. split; [intro H; split; [assumption | discriminate] | tauto].
  - rewrite cell_eqb_eq. split; [intro H; split; [assumption | discriminate] | tauto].
  - rewrite cell_eqb_eq. split; [intro H; split; [assumption | discriminate] | tauto].
Qed.

(** ** Boolean indexing is a filter *)

Lemma mask_filter {A : Type} (f : A -> bool) (l : list A) :
  map fst (filter snd (combine l (map f l))) = filter f l.
Proof.
  induction l as [|a l IH]; simpl; [reflexivity|].
  destruct (f a); simpl; now rewrite IH.
Qed.

Lemma boolean_index_series_eq (df : DataFrame) (j : nat) (v : cell) :
  boolean_index df (series_eq (map (at_loc j) (values df)) v)
  = mkDataFrame (columns df) (filter (date_is j v) (values df)).
Proof.
  unfold boolean_index, series_eq. f_equal.
  rewrite map_map. apply (mask_filter (fun row => elem_eq (at_loc j row) v)).
Qed.

Lemma getitem_loc (df : DataFrame) (key : string) (j : nat) :
  get_loc (columns df) key = Some j ->
  getitem df key = inr (map (at_loc j) (values df)).
Proof. unfold getitem. now intros ->. Qed.

Lemma filter_nil_iff {A : Type} (f : A -> bool) (l : list A) :
  (forall a, In a l -> f a = false) -> filter f l = [].
Proof.
  induction l as [|a l IH]; simpl; intro H; [reflexivity|].
  rewrite (H a (or_introl eq_refl)). apply IH. intros b Hb. apply H. now right.
Qed.

(** C4. On a frame with a [Region_Name] column, [filterByRegion] with a
    string returns the rows whose region is exactly that string (the
    comparison is string equality, so case matters), in their original
    order, under the same columns; without a match the result has no rows
    and is still a result. *)
Theorem filterByRegion_exact (df : DataFrame) (j : nat) (regionName : string) :
  get_loc (columns df) "Region_Name" = Some j ->
  exists out,
    filterByRegion df (Text regionName) = inr out /\
    columns out = columns df /\
    values out = filter (region_is j regionName) (values df) /\
    (forall row, region_is j regionName row = true <-> at_loc j row = Text regionName) /\
    ((forall row, In row (values df) -> at_loc j row <> Text regionName) ->
     values out = []).
Proof.
  intro Hloc. unfold filterByRegion. rewrite (getitem_loc _ _ _ Hloc). simpl.
  rewrite boolean_index_series_eq.
  exists (mkDataFrame (columns df) (filter (date_is j (Text regionName)) (values df))).
  assert (Hsame : filter (date_is j (Text regionName)) (values df)
                  = filter (region_is j regionName) (values df)).
  { apply filter_ext. intro row. unfold date_is, region_is. apply elem_eq_text. }
  simpl. repeat split.
  - exact Hsame.
  - unfold region_is. apply cell_eqb_eq.
  - unfold region_is. intro H. now apply cell_eqb_eq.
  - intro Hnone. rewrite Hsame. apply filter_nil_iff. intros row Hin.
    unfold region_is. destruct (cell_eqb (at_loc j row) (Text regionName)) eqn:E;
      [|reflexivity].
    apply cell_eqb_eq in E. now elim (Hnone row Hin).
Qed.

Lemma filterByRegion_exact_witness :
  get_loc (columns sample_frame) "Region_Name" = Some 1%nat /\
  exists out,
    filterByRegion sample_frame (Text "London") = inr out /\
    columns out = columns sample_frame /\
    values out = filter (region_is 1 "London") (values sample_frame) /\
    (forall row, region_is 1 "London" row = true <-> at_loc 1 row = Text "London") /\
    ((forall row, In row (values sample_frame) -> at_loc 1 row <> Text "London") ->
     values out = []).
Proof.
  split; [reflexivity | apply (filterByRegion_exact sample_frame 1 "London"); reflexivity].
Defined.

Example filterByRegion_case_sensitive :
  filterByRegion sample_frame (Text "london")
  = inr (mkDataFrame (columns sample_frame) []).
Proof. reflexivity. Qed.

(** ** Runs of the script, step by step *)

Lemma bind_emit {B : Type} (e : event) (k : unit -> script B) (s : session) :
  bind_script (emit e) k s = k tt (mkSession (heap s) (ui s ++ [e])).
Proof. reflexivity. Qed.

Lemma bind_frame_at {B : Type} (a : nat) (k : DataFrame -> script B) (s : session) :
  bind_script (frame_at a) k s = k (nth a (heap s) empty_frame) s.
Proof. reflexivity. Qed.

Lemma bind_new_frame {B : Type} (df : DataFrame) (k : nat -> script B) (s : session) :
  bind_script (new_frame df) k s
  = k (List.length (heap s)) (mkSession (heap s ++ [df]) (ui s)).
Proof. reflexivity. Qed.

Lemma bind_unit {A B : Type} (a : A) (k : A -> script B) (s : session) :
  bind_script (unit_script a) k s = k a s.
Proof. reflexivity. Qed.

Lemma bind_lift_inr {A B : Type} (r : result A) (a : A) (k : A -> script B)
    (s : session) :
  r = inr a -> bind_script (lift r) k s = k a s.
Proof. now intros ->. Qed.

Lemma bind_lift_inl {A B : Type} (r : result A) (e : exn) (k : A -> script B)
    (s : session) :
  r = inl e -> bind_script (lift r) k s = (inl e, s).
Proof. now intros ->. Qed.

Lemma bind_assoc {A B C : Type} (m : script A) (k : A -> script B) (h : B -> script C)
    (s : session) :
  bind_script (bind_script m k) h s
  = bind_script m (fun a => bind_script (k a) h) s.
Proof.
  unfold bind_script. destruct (m s) as [[e|a] s']; reflexivity.
Qed.

Ltac script_step :=
  first [ rewrite bind_emit | rewrite bind_frame_at | rewrite bind_new_frame
        | rewrite bind_unit | rewrite bind_assoc ];
  cbv beta; cbn [heap ui nth].

(** ** The pandas methods and the query lines, by what they return

    Each line of the script that queries [df_cleaned] computes the
    corresponding function of the frame the object holds at that moment,
    and stores the frames it builds as new objects. *)

Lemma bind_put_frame {B : Type} (a : nat) (df : DataFrame) (k : unit -> script B)
    (s : session) :
  bind_script (put_frame a df) k s = k tt (mkSession (set_nth a df (heap s)) (ui s)).
Proof. reflexivity. Qed.

Lemma bind_DataFrame_getitem {B : Type} (a : nat) (key : string)
    (k : list cell -> script B) (s : session) :
  bind_script (DataFrame_getitem a key) k s
  = match getitem (nth a (heap s) empty_frame) key with
    | inl e => (inl e, s)
    | inr col => k col s
    end.
Proof.
  unfold DataFrame_getitem, bind_script, frame_at, lift.
  destruct (getitem (nth a (heap s) empty_frame) key); reflexivity.
Qed.

Lemma bind_DataFrame_getitem_mask {B : Type} (a : nat) (mask : list bool)
    (k : nat -> script B) (s : session) :
  bind_script (DataFrame_getitem_mask a mask) k s
  = k (List.length (heap s))
      (mkSession (heap s ++ [boolean_index (nth a (heap s) empty_frame) mask]) (ui s)).
Proof. reflexivity. Qed.

Lemma bind_DataFrame_head {B : Type} (a n : nat) (k : nat -> script B) (s : session) :
  bind_script (DataFrame_head a n) k s
  = k (List.length (heap s))
      (mkSession (heap s ++ [head (nth a (heap s) empty_frame) n]) (ui s)).
Proof. reflexivity. Qed.

Lemma bind_all_regions {B : Type} (a : nat) (k : list cell -> script B) (s : session) :
  bind_script (all_regions a) k s
  = match uniqueRegions (nth a (heap s) empty_frame) with
    | inl e => (inl e, s)
    | inr regions => k regions s
    end.
Proof.
  unfold all_regions, uniqueRegions. rewrite bind_assoc, bind_DataFrame_getitem.
  destruct (getitem (nth a (heap s) empty_frame) "Region_Name"); reflexivity.
Qed.

Lemma bind_df_region {B : Type} (a : nat) (selected_region : cell)
    (k : nat -> script B) (s : session) :
  bind_script (df_region a selected_region) k s
  = match filterByRegion (nth a (heap s) empty_frame) selected_region with
    | inl e => (inl e, s)
    | inr out => k (List.length (heap s)) (mkSession (heap s ++ [out]) (ui s))
    end.
Proof.
  unfold df_region, filterByRegion. rewrite bind_assoc, bind_DataFrame_getitem.
  destruct (getitem (nth a (heap s) empty_frame) "Region_Name"); reflexivity.
Qed.

Lemma bind_latest_date {B : Type} (a : nat) (k : cell -> script B) (s : session) :
  bind_script (latest_date a) k s
  = match latestDate (nth a (heap s) empty_frame) with
    | inl e => (inl e, s)
    | inr latest => k latest s
    end.
Proof.
  unfold latest_date, latestDate. rewrite bind_assoc, bind_DataFrame_getitem.
  destruct (getitem (nth a (heap s) empty_frame) "Date") as [e|dates]; [reflexivity|].
  simpl. unfold bind_script, lift. destruct (series_max dates); reflexivity.
Qed.

Lemma bind_df_latest {B : Type} (a : nat) (date : cell) (k : nat -> script B)
    (s : session) :
  bind_script (df_latest a date) k s
  = match rowsAtDate (nth a (heap s) empty_frame) date with
    | inl e => (inl e, s)
    | inr out => k (List.length (heap s)) (mkSession (heap s ++ [out]) (ui s))
    end.
Proof.
  unfold df_latest, rowsAtDate. rewrite bind_assoc, bind_DataFrame_getitem.
  destruct (getitem (nth a (heap s) empty_frame) "Date"); reflexivity.
Qed.

Lemma bind_altair_chart {B : Type} (c : Chart) (k : unit -> script B) (s : session) :
  bind_script (altair_chart c) k s
  = if forallb (fun field => mem_string field (columns (chart_data c))) (encoded_fields c)
    then k tt (mkSession (heap s) (ui s ++ [st_altair_chart c]))
    else (inl (ValueError "Unable to determine data type for the field"), s).
Proof.
  unfold altair_chart.
  destruct (forallb (fun field => mem_string field (columns (chart_data c)))
              (encoded_fields c)); reflexivity.
Qed.

Section Lines.

Variable argsort : list cell -> result (list nat).
Variable numeric_dtype : list cell -> bool.
Variable summarize : list cell -> stats.

Lemma bind_DataFrame_sort_values {B : Type} (a : nat) (by_ : string) (ascending : bool)
    (k : option nat -> script B) (s : session) :
  bind_script (DataFrame_sort_values argsort a by_ ascending false) k s
  = match sort_values argsort (nth a (heap s) empty_frame) by_ ascending with
    | inl e => (inl e, s)
    | inr out => k (Some (List.length (heap s))) (mkSession (heap s ++ [out]) (ui s))
    end.
Proof.
  unfold DataFrame_sort_values, bind_script, frame_at, lift.
  destruct (sort_values argsort (nth a (heap s) empty_frame) by_ ascending); reflexivity.
Qed.

Lemma bind_DataFrame_sort_values_inplace {B : Type} (a : nat) (by_ : string)
    (ascending : bool) (k : option nat -> script B) (s : session) :
  bind_script (DataFrame_sort_values argsort a by_ ascending true) k s
  = match sort_values argsort (nth a (heap s) empty_frame) by_ ascending with
    | inl e => (inl e, s)
    | inr out => k None (mkSession (set_nth a out (heap s)) (ui s))
    end.
Proof.
  unfold DataFrame_sort_values, bind_script, frame_at, lift.
  destruct (sort_values argsort (nth a (heap s) empty_frame) by_ ascending); reflexivity.
Qed.

Lemma bind_df_top_10 {B : Type} (a n : nat) (k : nat -> script B) (s : session) :
  bind_script (df_top_10 argsort a n) k s
  = match sort_values argsort (nth a (heap s) empty_frame) "Average_Price" false with
    | inl e => (inl e, s)
    | inr sorted =>
        k (S (List.length (heap s)))
          (mkSession (heap s ++ [sorted; head sorted n]) (ui s))
    end.
Proof.
  unfold df_top_10. rewrite bind_assoc, bind_DataFrame_sort_values.
  destruct (sort_values argsort (nth a (heap s) empty_frame) "Average_Price" false)
    as [e|sorted]; [reflexivity|].
  cbn [on_object]. rewrite bind_DataFrame_head. cbn [heap ui].
  rewrite nth_middle, length_app, <- app_assoc. cbn [List.length app].
  now rewrite Nat.add_1_r.
Qed.

Lemma bind_DataFrame_describe {B : Type} (a : nat)
    (k : list (string * stats) -> script B) (s : session) :
  bind_script (DataFrame_describe numeric_dtype summarize a) k s
  = match summaryStatistics numeric_dtype summarize (nth a (heap s) empty_frame) with
    | inl e => (inl e, s)
    | inr table => k table s
    end.
Proof.
  unfold DataFrame_describe, summaryStatistics, bind_script, frame_at, lift.
  destruct (describe numeric_dtype summarize (nth a (heap s) empty_frame)); reflexivity.
Qed.

(** What a query returns and what it leaves behind: the value of the
    query on the frame of the object, no change to the page, and the
    frames it built as new objects behind those that were there. *)
Lemma run_query_returns (a : nat) (q : query) (s : session) :
  run_query argsort numeric_dtype summarize a q s
  = match q with
    | FilterByRegion r =>
        match filterByRegion (nth a (heap s) empty_frame) r with
        | inl e => (inl e, s)
        | inr out => (inr (Frame (List.length (heap s))),
                      mkSession (heap s ++ [out]) (ui s))
        end
    | RowsAtDate d =>
        match rowsAtDate (nth a (heap s) empty_frame) d with
        | inl e => (inl e, s)
        | inr out => (inr (Frame (List.length (heap s))),
                      mkSession (heap s ++ [out]) (ui s))
        end
    | TopNByPrice n =>
        match sort_values argsort (nth a (heap s) empty_frame) "Average_Price" false with
        | inl e => (inl e, s)
        | inr sorted => (inr (Frame (S (List.length (heap s)))),
                         mkSession (heap s ++ [sorted; head sorted n]) (ui s))
        end
    | UniqueRegions =>
        match uniqueRegions (nth a (heap s) empty_frame) with
        | inl e => (inl e, s)
        | inr out => (inr (Cells out), s)
        end
    | LatestDate =>
        match latestDate (nth a (heap s) empty_frame) with
        | inl e => (inl e, s)
        | inr out => (inr (Scalar out), s)
        end
    | SummaryStatistics =>
        match summaryStatistics numeric_dtype summarize (nth a (heap s) empty_frame) with
        | inl e => (inl e, s)
        | inr out => (inr (Statistics out), s)
        end
    end.
Proof.
  destruct q; cbn [run_query].
  - now rewrite bind_df_region.
  - now rewrite bind_df_latest.
  - now rewrite bind_df_top_10.
  - now rewrite bind_all_regions.
  - now rewrite bind_latest_date.
  - now rewrite bind_DataFrame_describe.
Qed.

End Lines.

Ltac line_step :=
  first [ rewrite bind_DataFrame_describe | rewrite bind_all_regions
        | rewrite bind_df_region | rewrite bind_latest_date
        | rewrite bind_df_latest | rewrite bind_df_top_10
        | rewrite bind_altair_chart ];
  cbn [heap ui nth].

(** ** The object store only grows under queries *)

Lemma grows_unit {A : Type} (a : A) : grows (unit_script a).
Proof. intro s. exists []. simpl. now rewrite app_nil_r. Qed.

Lemma grows_lift {A : Type} (r : result A) : grows (lift r).
Proof. intro s. exists []. simpl. now rewrite app_nil_r. Qed.

Lemma grows_emit (e : event) : grows (emit e).
Proof. intro s. exists []. simpl. now rewrite app_nil_r. Qed.

Lemma grows_frame_at (a : nat) : grows (frame_at a).
Proof. intro s. exists []. simpl. now rewrite app_nil_r. Qed.

Lemma grows_new_frame (df : DataFrame) : grows (new_frame df).
Proof. intro s. exists [df]. reflexivity. Qed.

Lemma grows_stop {A : Type} : grows (@st_stop A).
Proof. intro s. exists []. simpl. now rewrite app_nil_r. Qed.

Lemma grows_bind {A B : Type} (m : script A) (k : A -> script B) :
  grows m -> (forall a, grows (k a)) -> grows (bind_script m k).
Proof.
  intros Hm Hk s. unfold bind_script.
  destruct (Hm s) as (e1 & H1). destruct (m s) as [[e|a] s']; simpl in *.
  - eauto.
  - destruct (Hk a s') as (e2 & H2). exists (e1 ++ e2).
    now rewrite H2, H1, app_assoc.
Qed.

Lemma grows_on_object {A : Type} (receiver : option nat) (method : nat -> script A) :
  (forall a, grows (method a)) -> grows (on_object receiver method).
Proof. intro H. destruct receiver; [apply H | apply grows_lift]. Qed.

Lemma grows_altair_chart (c : Chart) : grows (altair_chart c).
Proof.
  unfold altair_chart.
  destruct (forallb _ _); [apply grows_emit | apply grows_lift].
Qed.

Lemma grows_DataFrame_getitem (a : nat) (key : string) : grows (DataFrame_getitem a key).
Proof. apply grows_bind; [apply grows_frame_at | intro; apply grows_lift]. Qed.

Lemma grows_DataFrame_getitem_mask (a : nat) (mask : list bool) :
  grows (DataFrame_getitem_mask a mask).
Proof. apply grows_bind; [apply grows_frame_at | intro; apply grows_new_frame]. Qed.

Lemma grows_DataFrame_head (a n : nat) : grows (DataFrame_head a n).
Proof. apply grows_bind; [apply grows_frame_at | intro; apply grows_new_frame]. Qed.

(** A script that replaces an object does not pass: the object it is
    called on holds another frame afterwards. *)
Example put_frame_changes :
  heap (snd (put_frame 0 tie_frame (mkSession [sample_frame] [])))
  = [tie_frame].
Proof. reflexivity. Qed.

Section Store.

Variable argsort : list cell -> result (list nat).
Variable numeric_dtype : list cell -> bool.
Variable summarize : list cell -> stats.

Let query_step := run_query argsort numeric_dtype summarize.
Let query_steps := run_queries argsort numeric_dtype summarize.

(** With [inplace] at its default the sort builds a new object. *)
Lemma grows_DataFrame_sort_values (a : nat) (by_ : string) (ascending : bool) :
  grows (DataFrame_sort_values argsort a by_ ascending false).
Proof.
  unfold DataFrame_sort_values.
  apply grows_bind; [apply grows_frame_at | intro df].
  apply grows_bind; [apply grows_lift | intro out].
  apply grows_bind; [apply grows_new_frame | intro; apply grows_unit].
Qed.

Lemma grows_DataFrame_describe (a : nat) :
  grows (DataFrame_describe numeric_dtype summarize a).
Proof. apply grows_bind; [apply grows_frame_at | intro; apply grows_lift]. Qed.

Lemma grows_all_regions (a : nat) : grows (all_regions a).
Proof.
  apply grows_bind; [apply grows_DataFrame_getitem | intro; apply grows_unit].
Qed.

Lemma grows_df_region (a : nat) (r : cell) : grows (df_region a r).
Proof.
  apply grows_bind;
    [apply grows_DataFrame_getitem | intro; apply grows_DataFrame_getitem_mask].
Qed.

Lemma grows_latest_date (a : nat) : grows (latest_date a).
Proof.
  apply grows_bind; [apply grows_DataFrame_getitem | intro; apply grows_lift].
Qed.

Lemma grows_df_latest (a : nat) (d : cell) : grows (df_latest a d).
Proof.
  apply grows_bind;
    [apply grows_DataFrame_getitem | intro; apply grows_DataFrame_getitem_mask].
Qed.

Lemma grows_df_top_10 (a n : nat) : grows (df_top_10 argsort a n).
Proof.
  apply grows_bind; [apply grows_DataFrame_sort_values | intro sorted].
  apply grows_on_object. intro b. apply grows_DataFrame_head.
Qed.

Lemma run_query_extends (a : nat) (q : query) (s : session) :
  exists extra,
    heap (snd (query_step a q s)) = heap s ++ extra /\
    ui (snd (query_step a q s)) = ui s.
Proof.
  unfold query_step. rewrite run_query_returns.
  destruct q;
    match goal with
    | |- context [match ?r with inl _ => _ | inr _ => _ end] => destruct r
    end; cbn [snd heap ui]; eauto using app_nil_r.
  all: exists []; now rewrite app_nil_r.
Qed.

Lemma run_queries_extends (a : nat) (qs : list query) (s : session) :
  exists extra,
    heap (query_steps a qs s) = heap s ++ extra /\
    ui (query_steps a qs s) = ui s.
Proof.
  revert s. induction qs as [|q qs IH]; intro s; simpl.
  - exists []. now rewrite app_nil_r.
  - destruct (run_query_extends a q s) as (e1 & H1 & U1).
    destruct (IH (snd (query_step a q s))) as (e2 & H2 & U2).
    exists (e1 ++ e2). unfold query_steps in *. simpl.
    fold query_step. rewrite H2, H1, U2, U1, app_assoc. auto.
Qed.

Lemma run_queries_keeps (a : nat) (qs : list query) (s : session) :
  (a < List.length (heap s))%nat ->
  nth a (heap (query_steps a qs s)) empty_frame = nth a (heap s) empty_frame.
Proof.
  intro Ha. destruct (run_queries_extends a qs s) as (extra & -> & _).
  now apply app_nth1.
Qed.

Lemma grows_render (w : widgets) (a : nat) :
  grows (render argsort numeric_dtype summarize w a).
Proof.
  unfold render.
  repeat first
    [ apply grows_emit | apply grows_lift | apply grows_frame_at
    | apply grows_unit | apply grows_altair_chart
    | apply grows_DataFrame_describe | apply grows_all_regions
    | apply grows_df_region | apply grows_latest_date | apply grows_df_latest
    | apply grows_df_top_10
    | match goal with |- grows (if ?b then _ else _) => destruct b end
    | apply grows_bind; [|intro] ].
Qed.

End Store.

(** ** The load, on objects *)

Lemma set_nth_last {A : Type} (x y : A) (l : list A) :
  set_nth (List.length l) y (l ++ [x]) = l ++ [y].
Proof. induction l as [|a l IH]; simpl; [reflexivity | now rewrite IH]. Qed.

Section LoadRun.

Variable parse_number : string -> option Z.
Variable parse_datetime : string -> option Z.

(** [load_data] returns what the function on values returns, as a new
    object behind the frame that was read, which by then holds the parsed
    dates; when it raises, the page is as it was. *)
Lemma load_data_run_returns (fs : filesystem) (path : string) (s : session) :
  match load_data parse_number parse_datetime fs path with
  | inr table =>
      exists raw,
        load_data_run parse_number parse_datetime fs path s
        = (inr (S (List.length (heap s))), mkSession (heap s ++ [raw; table]) (ui s))
  | inl e =>
      exists s',
        load_data_run parse_number parse_datetime fs path s = (inl e, s') /\
        ui s' = ui s
  end.
Proof.
  unfold load_data, load_data_run.
  destruct (read_csv parse_number fs path) as [e|raw] eqn:Hread.
  { exists s. split; reflexivity. }
  cbn [bind]. rewrite (bind_lift_inr _ _ _ _ eq_refl), bind_new_frame.
  rewrite bind_DataFrame_getitem. cbn [heap ui]. rewrite nth_middle.
  destruct (getitem raw "Date") as [e|date].
  { eexists. split; reflexivity. }
  cbn [bind].
  destruct (to_datetime parse_datetime date) as [e|parsed].
  { rewrite (bind_lift_inl _ _ _ _ eq_refl). eexists. split; reflexivity. }
  rewrite (bind_lift_inr _ _ _ _ eq_refl). cbn [bind].
  unfold DataFrame_setitem. rewrite bind_assoc, bind_frame_at. cbn [heap ui].
  rewrite nth_middle, bind_assoc.
  destruct (setitem raw "Date" parsed) as [e|changed].
  { rewrite (bind_lift_inl _ _ _ _ eq_refl). eexists. split; reflexivity. }
  rewrite (bind_lift_inr _ _ _ _ eq_refl), bind_put_frame. cbn [heap ui bind].
  rewrite set_nth_last.
  unfold DataFrame_drop. rewrite !bind_assoc, bind_frame_at. cbn [heap ui].
  rewrite nth_middle, bind_assoc.
  destruct (drop changed "Average_Price_SA") as [e|table].
  { rewrite (bind_lift_inl _ _ _ _ eq_refl). eexists. split; reflexivity. }
  rewrite (bind_lift_inr _ _ _ _ eq_refl). cbv iota.
  rewrite bind_assoc, bind_new_frame, bind_unit. cbn [on_object heap ui].
  exists changed. unfold unit_script.
  now rewrite length_app, Nat.add_1_r, <- app_assoc.
Qed.

Variable argsort : list cell -> result (list nat).
Variable numeric_dtype : list cell -> bool.
Variable summarize : list cell -> stats.

Lemma app_after_load (fs : filesystem) (w : widgets) (table : DataFrame) :
  load_data parse_number parse_datetime fs csv_path = inr table ->
  exists raw,
    app parse_number parse_datetime argsort numeric_dtype summarize fs w empty_session
    = render argsort numeric_dtype summarize w 1
        (mkSession [raw; table] [st_set_page_config]).
Proof.
  intro Hload.
  pose proof (load_data_run_returns fs csv_path (mkSession [] [st_set_page_config]))
    as Hrun.
  rewrite Hload in Hrun. destruct Hrun as (raw & Hrun). exists raw.
  unfold app. rewrite bind_emit.
  cbn [heap ui empty_session Datatypes.app List.length] in *.
  unfold startup, try_except, bind_script at 1. now rewrite Hrun.
Qed.

(** A load that raises: the handler of line 30 takes [FileNotFoundError]
    and nothing else. *)
Lemma app_when_load_fails (fs : filesystem) (w : widgets) (e : exn) :
  load_data parse_number parse_datetime fs csv_path = inl e ->
  run (app parse_number parse_datetime argsort numeric_dtype summarize fs w)
  = match e with
    | FileNotFoundError => (Halted, [st_set_page_config; st_error not_found_message])
    | StopException => (Halted, [st_set_page_config])
    | _ => (Uncaught e, [st_set_page_config])
    end.
Proof.
  intro Hload.
  pose proof (load_data_run_returns fs csv_path (mkSession [] [st_set_page_config]))
    as Hrun.
  rewrite Hload in Hrun. destruct Hrun as (s' & Hrun & Hui).
  unfold run, app. rewrite bind_emit.
  cbn [heap ui empty_session Datatypes.app List.length] in *.
  unfold startup, try_except, bind_script at 1. rewrite Hrun.
  destruct e; cbn [is_FileNotFoundError]; try (now rewrite Hui).
  rewrite bind_emit. unfold st_stop. cbn [ui]. now rewrite Hui.
Qed.

End LoadRun.

(** The in-place form of the sort, which line 101 does not use, is where
    the object would change: called on the sample it leaves the rows of the
    object in descending order of price. *)
Example sort_values_inplace_changes :
  heap (snd (DataFrame_sort_values argsort_stable 0 "Average_Price" false true
               (mkSession [sample_frame] [])))
  = [mkDataFrame (columns sample_frame)
       [nth 2 (values sample_frame) []; nth 0 (values sample_frame) [];
        nth 1 (values sample_frame) []]]
  /\ heap (snd (DataFrame_sort_values argsort_stable 0 "Average_Price" false false
                  (mkSession [sample_frame] [])))
     = [sample_frame;
        mkDataFrame (columns sample_frame)
          [nth 2 (values sample_frame) []; nth 0 (values sample_frame) [];
           nth 1 (values sample_frame) []]].
Proof. split; reflexivity. Qed.

(** C9. The store lets an object be replaced, and pandas has methods that
    do so; the lines of the script that query [df_cleaned] call none of
    them.  Whatever queries run, in whatever order and with whatever
    arguments, the object that [load_data] returned holds the same frame
    afterwards, and so does every other object that existed before: the
    queries only add objects to the store.  The same holds for the script's
    own pass: when the load succeeds, [df_cleaned] is the second object of
    the store, behind the frame that was read and changed in place by the
    load, and both hold the same frames at the end of the run, however the
    run ends. *)
Theorem table_unchanged_by_queries
    (parse_number parse_datetime : string -> option Z)
    (argsort : list cell -> result (list nat))
    (numeric_dtype : list cell -> bool) (summarize : list cell -> stats)
    (table : DataFrame) (qs : list query) (s0 : session) :
  (nth (List.length (heap s0))
       (heap (run_queries argsort numeric_dtype summarize (List.length (heap s0)) qs
                (snd (new_frame table s0))))
       empty_frame
   = table
   /\ exists added,
        heap (run_queries argsort numeric_dtype summarize (List.length (heap s0)) qs
                (snd (new_frame table s0)))
        = heap s0 ++ table :: added)
  /\ (forall fs w,
         load_data parse_number parse_datetime fs csv_path = inr table ->
         exists raw,
           startup parse_number parse_datetime fs (mkSession [] [st_set_page_config])
           = (inr 1%nat, mkSession [raw; table] [st_set_page_config]) /\
           (exists added,
              heap (run_queries argsort numeric_dtype summarize 1 qs
                      (mkSession [raw; table] [st_set_page_config]))
              = raw :: table :: added) /\
           (exists added,
              heap (snd (app parse_number parse_datetime argsort numeric_dtype summarize
                           fs w empty_session))
              = raw :: table :: added)).
Proof.
  split.
  - destruct (run_queries_extends argsort numeric_dtype summarize
                (List.length (heap s0)) qs (snd (new_frame table s0)))
      as (extra & Hheap & _).
    unfold new_frame in *. cbn [snd heap] in *. rewrite Hheap. split.
    + rewrite <- app_assoc. simpl. now rewrite nth_middle.
    + exists extra. now rewrite <- app_assoc.
  - intros fs w Hload.
    pose proof (load_data_run_returns parse_number parse_datetime fs csv_path
                  (mkSession [] [st_set_page_config])) as Hrun.
    rewrite Hload in Hrun. destruct Hrun as (raw & Hrun).
    cbn [heap ui Datatypes.app List.length] in Hrun.
    exists raw. split; [|split].
    + unfold startup, try_except. now rewrite Hrun.
    + destruct (run_queries_extends argsort numeric_dtype summarize 1 qs
                  (mkSession [raw; table] [st_set_page_config])) as (added & Hadded & _).
      exists added. exact Hadded.
    + assert (Happ : app parse_number parse_datetime argsort numeric_dtype summarize
                       fs w empty_session
                     = render argsort numeric_dtype summarize w 1
                         (mkSession [raw; table] [st_set_page_config])).
      { unfold app. rewrite bind_emit.
        cbn [heap ui empty_session Datatypes.app].
        unfold startup, try_except, bind_script at 1. now rewrite Hrun. }
      rewrite Happ.
      destruct (grows_render argsort numeric_dtype summarize w 1
                  (mkSession [raw; table] [st_set_page_config])) as (added & Hadded).
      exists added. exact Hadded.
Qed.

Lemma table_unchanged_by_queries_witness :
  load_data decimal_number iso_date (one_file sample_header uk_records) csv_path
  = inr uk_frame /\
  exists raw added,
    heap (snd (app decimal_number iso_date argsort_stable all_numbers count_present
                 (one_file sample_header uk_records) (mkWidgets true None)
                 empty_session))
    = raw :: uk_frame :: added.
Proof.
  assert (Hload : load_data decimal_number iso_date (one_file sample_header uk_records)
                    csv_path
                  = inr uk_frame)
    by (vm_compute; reflexivity).
  split; [exact Hload|].
  destruct (table_unchanged_by_queries decimal_number iso_date argsort_stable all_numbers
              count_present uk_frame [] empty_session) as (_ & Hscript).
  destruct (Hscript (one_file sample_header uk_records) (mkWidgets true None) Hload)
    as (raw & _ & _ & added & Hadded).
  exists raw, added. exact Hadded.
Defined.

(** ** First occurrences *)

Lemma unique_from_first (col : list cell) : forall seen prefix,
  (forall c, existsb (cell_eqb c) seen = existsb (cell_eqb c) prefix) ->
  unique_from seen col
  = map snd
      (filter (fun p => negb (existsb (cell_eqb (snd p)) (firstn (fst p) (prefix ++ col))))
         (combine (seq (List.length prefix) (List.length col)) col)).
Proof.
  induction col as [|c t IH]; intros seen prefix Hsame; [reflexivity|].
  cbn [unique_from List.length seq combine filter fst snd].
  assert (Hfirst : firstn (List.length prefix) (prefix ++ c :: t) = prefix).
  { rewrite firstn_app, firstn_all, Nat.sub_diag. simpl. apply app_nil_r. }
  rewrite Hfirst, <- Hsame.
  assert (Hshift : prefix ++ c :: t = (prefix ++ [c]) ++ t)
    by (now rewrite <- app_assoc).
  assert (Hlen : S (List.length prefix) = List.length (prefix ++ [c]))
    by (rewrite length_app; simpl; lia).
  destruct (existsb (cell_eqb c) seen) eqn:E; cbn [negb map snd].
  - rewrite Hshift, Hlen. apply IH. intro x.
    rewrite existsb_app. simpl. rewrite orb_false_r, <- Hsame.
    destruct (cell_eqb x c) eqn:Ex; [|now rewrite orb_false_r].
    apply cell_eqb_eq in Ex. subst x. now rewrite E.
  - f_equal. rewrite Hshift, Hlen. apply IH. intro x.
    rewrite existsb_app. simpl. rewrite orb_false_r, <- Hsame. apply orb_comm.
Qed.

Lemma unique_first_occurrences (col : list cell) : unique col = first_occurrences col.
Proof. apply (unique_from_first col [] []). reflexivity. Qed.

Lemma unique_from_In (col : list cell) : forall seen x,
  In x (unique_from seen col) <-> In x col /\ ~ In x seen.
Proof.
  induction col as [|c t IH]; intros seen x; simpl; [tauto|].
  destruct (existsb (cell_eqb c) seen) eqn:E.
  - apply existsb_cell_eqb in E. rewrite IH. split.
    + intros [H1 H2]. auto.
    + intros [[->|H1] H2]; [contradiction | auto].
  - assert (Hc : ~ In c seen).
    { intro H. apply existsb_cell_eqb in H. congruence. }
    simpl. rewrite IH. simpl. split.
    + intros [->|[H1 H2]]; [auto | split; [auto | tauto]].
    + intros [[->|H1] H2]; [auto|].
      destruct (cell_eqb c x) eqn:Ex.
      * left. now apply cell_eqb_eq.
      * right. split; [assumption|]. intros [->|H]; [|contradiction].
        now rewrite cell_eqb_refl in Ex.
Qed.

Lemma unique_from_NoDup (col : list cell) : forall seen, NoDup (unique_from seen col).
Proof.
  induction col as [|c t IH]; intro seen; simpl; [constructor|].
  destruct (existsb (cell_eqb c) seen); [apply IH|].
  constructor; [|apply IH].
  rewrite unique_from_In. simpl. tauto.
Qed.

Section Regions.

Variable argsort : list cell -> result (list nat).
Variable numeric_dtype : list cell -> bool.
Variable summarize : list cell -> stats.

(** C5. On a frame with a [Region_Name] column, [uniqueRegions] returns a
    list without repetition, holding the region values in the order of
    their first occurrence; a value is listed exactly when some row carries
    it; and asking again, after any other queries, gives the same list. *)
Theorem uniqueRegions_distinct (df : DataFrame) (j : nat) :
  get_loc (columns df) "Region_Name" = Some j ->
  exists regions,
    uniqueRegions df = inr regions /\
    NoDup regions /\
    regions = first_occurrences (map (at_loc j) (values df)) /\
    (forall v, In v regions <-> exists row, In row (values df) /\ at_loc j row = v) /\
    (forall a qs s,
        (a < List.length (heap s))%nat ->
        nth a (heap s) empty_frame = df ->
        fst (run_query argsort numeric_dtype summarize a UniqueRegions
               (run_queries argsort numeric_dtype summarize a qs s))
        = inr (Cells regions)).
Proof.
  intro Hloc. exists (unique (map (at_loc j) (values df))).
  unfold uniqueRegions. rewrite (getitem_loc _ _ _ Hloc). simpl.
  split; [reflexivity|]. split; [apply unique_from_NoDup|].
  split; [apply unique_first_occurrences|]. split.
  - intro v. unfold unique. rewrite unique_from_In, in_map_iff. simpl. split.
    + intros [(row & Hv & Hin) _]. eauto.
    + intros (row & Hin & Hv). split; [eauto | tauto].
  - intros a qs s Ha Hdf.
    rewrite bind_all_regions.
    rewrite (run_queries_keeps argsort numeric_dtype summarize a qs s Ha), Hdf.
    unfold uniqueRegions. rewrite (getitem_loc _ _ _ Hloc). reflexivity.
Qed.

End Regions.

Lemma uniqueRegions_distinct_witness :
  get_loc (columns sample_frame) "Region_Name" = Some 1%nat /\
  exists regions,
    uniqueRegions sample_frame = inr regions /\
    NoDup regions /\
    regions = first_occurrences (map (at_loc 1) (values sample_frame)) /\
    (forall v, In v regions <->
               exists row, In row (values sample_frame) /\ at_loc 1 row = v) /\
    (forall a qs s,
        (a < List.length (heap s))%nat ->
        nth a (heap s) empty_frame = sample_frame ->
        fst (run_query argsort_stable all_numbers count_present a UniqueRegions
               (run_queries argsort_stable all_numbers count_present a qs s))
        = inr (Cells regions)).
Proof.
  split; [reflexivity|].
  apply (uniqueRegions_distinct argsort_stable all_numbers count_present sample_frame 1).
  reflexivity.
Defined.

Example uniqueRegions_sample :
  uniqueRegions sample_frame = inr [Text "London"; Text "York"].
Proof. reflexivity. Qed.

(** ** Slices by date *)

Lemma mapM_total {A B : Type} (f : A -> result B) (g : A -> B) (l : list A) :
  (forall a, f a = inr (g a)) -> mapM f l = inr (map g l).
Proof.
  intro H. induction l as [|a l IH]; simpl; [reflexivity|].
  now rewrite H, IH.
Qed.

Lemma filter_none {A : Type} (l : list A) : filter (fun _ => false) l = [].
Proof. induction l; simpl; auto. Qed.

Lemma filter_split {A : Type} (p q : A -> bool) (l : list A) :
  (forall a, In a l -> p a = true -> q a = false) ->
  Permutation (filter p l ++ filter q l) (filter (fun a => p a || q a) l).
Proof.
  induction l as [|a l IH]; intro Hdisj; simpl; [constructor|].
  assert (IH' : Permutation (filter p l ++ filter q l) (filter (fun a => p a || q a) l)).
  { apply IH. intros b Hb. apply Hdisj. now right. }
  destruct (p a) eqn:Ep; simpl.
  - rewrite (Hdisj a (or_introl eq_refl) Ep). now apply perm_skip.
  - destruct (q a); [|assumption].
    apply Permutation_sym, Permutation_cons_app, Permutation_sym, IH'.
Qed.

Lemma slices_cover {A : Type} (k : A -> cell) (l : list A) (ds : list cell) :
  NoDup ds ->
  Permutation (flat_map (fun d => filter (fun x => elem_eq (k x) d) l) ds)
              (filter (fun x => existsb (elem_eq (k x)) ds) l).
Proof.
  induction 1 as [|d ds Hd Hnd IH]; simpl.
  - now rewrite filter_none.
  - eapply Permutation_trans; [apply Permutation_app_head, IH|].
    apply (filter_split (fun x => elem_eq (k x) d)
                        (fun x => existsb (elem_eq (k x)) ds)).
    intros a _ Ha. apply elem_eq_true in Ha as [Ha _].
    destruct (existsb (elem_eq (k a)) ds) eqn:E; [|reflexivity].
    apply existsb_exists in E as (d' & Hin & Heq).
    apply elem_eq_true in Heq as [Heq _]. congruence.
Qed.

Lemma existsb_elem_eq_unique {A : Type} (k : A -> cell) (l : list A) (x : A) :
  In x l -> existsb (elem_eq (k x)) (unique (map k l)) = notna (k x).
Proof.
  intro Hin. unfold notna. destruct (isna (k x)) eqn:E; simpl.
  - destruct (k x); try discriminate.
    induction (unique (map k l)); simpl; auto.
  - apply existsb_exists. exists (k x). split.
    + apply unique_from_In. split; [now apply in_map | tauto].
    + apply elem_eq_true. split; [reflexivity|]. intro H. now rewrite H in E.
Qed.

Lemma rowsAtDate_filter (df : DataFrame) (j : nat) (d : cell) :
  get_loc (columns df) "Date" = Some j ->
  rowsAtDate df d = inr (mkDataFrame (columns df) (filter (date_is j d) (values df))).
Proof.
  intro Hloc. unfold rowsAtDate. rewrite (getitem_loc _ _ _ Hloc). simpl.
  now rewrite boolean_index_series_eq.
Qed.

Lemma slices_flat_map (df : DataFrame) (j : nat) :
  get_loc (columns df) "Date" = Some j ->
  slices df
  = inr (flat_map (fun d => filter (date_is j d) (values df))
           (unique (map (at_loc j) (values df)))).
Proof.
  intro Hloc. unfold slices. rewrite (getitem_loc _ _ _ Hloc). simpl.
  rewrite (mapM_total _ (fun d => mkDataFrame (columns df) (filter (date_is j d) (values df))))
    by (intro d; now apply rowsAtDate_filter).
  simpl. now rewrite map_map, flat_map_concat_map.
Qed.

(** C6, as the script has it.  On a frame with a [Date] column,
    [rowsAtDate] returns the rows whose date equals the given one, in
    order; a missing date equals nothing.  The slices over the distinct
    dates of the frame hold every dated row once, each in the slice of its
    own date and in no other; rows whose date is missing are in no slice.
    When every row is dated, the slices partition the frame. *)
Theorem rowsAtDate_partition (df : DataFrame) (j : nat) :
  get_loc (columns df) "Date" = Some j ->
  (forall d,
      exists out,
        rowsAtDate df d = inr out /\
        columns out = columns df /\
        values out = filter (date_is j d) (values df) /\
        (forall row, date_is j d row = true <-> at_loc j row = d /\ d <> NA)) /\
  exists union,
    slices df = inr union /\
    Permutation union (filter (dated j) (values df)) /\
    (forall row d,
        In row (values df) -> at_loc j row <> NA ->
        (In row (filter (date_is j d) (values df)) <-> d = at_loc j row)) /\
    (forall row d,
        In row (values df) -> at_loc j row = NA ->
        ~ In row (filter (date_is j d) (values df))) /\
    ((forall row, In row (values df) -> at_loc j row <> NA) ->
     Permutation union (values df)).
Proof.
  intro Hloc.
  assert (Hdate : forall row d, date_is j d row = true <-> at_loc j row = d /\ d <> NA).
  { intros row d. unfold date_is. rewrite elem_eq_true. split.
    - intros [H1 H2]. split; [assumption | congruence].
    - intros [H1 H2]. split; [assumption | congruence]. }
  assert (Hunion : Permutation
            (flat_map (fun d => filter (date_is j d) (values df))
               (unique (map (at_loc j) (values df))))
            (filter (dated j) (values df))).
  { eapply Permutation_trans.
    - apply (slices_cover (at_loc j) (values df)). apply unique_from_NoDup.
    - erewrite filter_ext_in; [apply Permutation_refl|].
      intros row Hin. now apply existsb_elem_eq_unique. }
  split.
  - intro d. eexists. split; [apply (rowsAtDate_filter df j d Hloc)|].
    simpl. split; [reflexivity|]. split; [reflexivity|]. intro row. apply Hdate.
  - eexists. split; [apply (slices_flat_map df j Hloc)|].
    split; [exact Hunion|]. split; [|split].
    + intros row d Hin Hna. rewrite filter_In, Hdate. split.
      * intros [_ [H _]]. now symmetry.
      * intros ->. auto.
    + intros row d Hin Hna. rewrite filter_In, Hdate. intros [_ [H1 H2]]. congruence.
    + intro Hall. eapply Permutation_trans; [exact Hunion|].
      erewrite filter_ext_in; [rewrite filter_true; apply Permutation_refl|].
      intros row Hin. unfold dated, notna. specialize (Hall row Hin).
      simpl. now destruct (at_loc j row).
Qed.

Lemma rowsAtDate_partition_witness :
  get_loc (columns sample_frame) "Date" = Some 0%nat /\
  exists union,
    slices sample_frame = inr union /\ Permutation union (values sample_frame).
Proof.
  split; [reflexivity|].
  destruct (rowsAtDate_partition sample_frame 0 eq_refl)
    as (_ & union & Hs & _ & _ & _ & Hall).
  exists union. split; [exact Hs|]. apply Hall.
  intros row Hin. simpl in Hin.
  destruct Hin as [<-|[<-|[<-|[]]]]; discriminate.
Defined.

(** C6, as the claim has it, fails on a file whose date fields are empty or
    a missing-value marker: the file loads, both rows are kept with a
    missing date, and no slice holds either of them. *)
Lemma rowsAtDate_partition_counterexample :
  load_data decimal_number iso_date undated_fs csv_path = inr undated_frame /\
  values undated_frame
  = [[NA; Text "London"; Number 500000]; [NA; Text "York"; Number 300000]] /\
  slices undated_frame = inr [] /\
  rowsAtDate undated_frame NA = inr (mkDataFrame (columns undated_frame) []).
Proof. vm_compute. auto. Qed.

(** ** The latest date *)

Lemma max_from_stamps (l : list cell) : forall a,
  Forall (fun c => exists t, c = Timestamp t) l ->
  exists m,
    max_from (Timestamp a) l = inr (Timestamp m) /\
    (a <= m)%Z /\
    (forall t, In (Timestamp t) l -> (t <= m)%Z) /\
    (m = a \/ In (Timestamp m) l).
Proof.
  induction l as [|c l IH]; intros a Hall.
  - exists a. simpl. split; [reflexivity|]. split; [lia|]. split; [intros t []|now left].
  - inversion Hall as [|c' l' [t0 ->] Hrest]; subst.
    destruct (IH (Z.max a t0) Hrest) as (m & Hm & Hle & Hub & Hwit).
    exists m. simpl. split; [exact Hm|]. split; [lia|]. split.
    + intros t [Heq|Hin]; [injection Heq as ->; lia | now apply Hub].
    + destruct Hwit as [->|Hin]; [|auto].
      destruct (Z.max_spec a t0) as [[_ ->]|[_ ->]]; auto.
Qed.

Lemma datetime_present (col : list cell) :
  Forall (fun c => is_datetime c = true) col ->
  Forall (fun c => exists t, c = Timestamp t) (filter notna col).
Proof.
  induction 1 as [|c col Hc _ IH]; simpl; [constructor|].
  destruct c; simpl; try discriminate; [assumption|].
  constructor; eauto.
Qed.

(** C3, as the script has it.  On a frame whose [Date] column is a datetime
    column, [latestDate] returns a value and never raises: the greatest
    date carried by a row when some row is dated, and NaT when none is,
    which includes the frame without rows. *)
Theorem latestDate_max (df : DataFrame) (j : nat) :
  get_loc (columns df) "Date" = Some j ->
  Forall (fun row => is_datetime (at_loc j row) = true) (values df) ->
  exists latest,
    latestDate df = inr latest /\
    (forall row t,
        In row (values df) -> at_loc j row = Timestamp t ->
        exists m,
          latest = Timestamp m /\ (t <= m)%Z /\
          exists top, In top (values df) /\ at_loc j top = Timestamp m) /\
    ((forall row, In row (values df) -> at_loc j row = NA) -> latest = NA) /\
    (values df = [] -> latest = NA).
Proof.
  intros Hloc Hall. unfold latestDate. rewrite (getitem_loc _ _ _ Hloc). simpl.
  unfold series_max.
  assert (Hcol : Forall (fun c => is_datetime c = true) (map (at_loc j) (values df))).
  { apply Forall_map. exact Hall. }
  pose proof (datetime_present _ Hcol) as Hpresent.
  assert (Hnone : (forall row, In row (values df) -> at_loc j row = NA) ->
                  filter notna (map (at_loc j) (values df)) = []).
  { intro Hna. apply filter_nil_iff. intros c Hc.
    apply in_map_iff in Hc as (row & <- & Hin). now rewrite (Hna row Hin). }
  destruct (filter notna (map (at_loc j) (values df))) as [|c rest] eqn:E.
  - exists NA. split; [reflexivity|]. split; [|auto].
    intros row t Hin Ht.
    assert (Hmem : In (Timestamp t) (filter notna (map (at_loc j) (values df)))).
    { apply filter_In. split; [|reflexivity]. rewrite <- Ht. now apply in_map. }
    rewrite E in Hmem. destruct Hmem.
  - inversion Hpresent as [|c' rest' [a ->] Hrest]; subst.
    destruct (max_from_stamps rest a Hrest) as (m & Hm & Hle & Hub & Hwit).
    exists (Timestamp m). split; [exact Hm|].
    assert (Hback : forall t, In (Timestamp t) (Timestamp a :: rest) ->
                    exists top, In top (values df) /\ at_loc j top = Timestamp t).
    { intros t Ht. rewrite <- E in Ht. apply filter_In in Ht as [Ht _].
      apply in_map_iff in Ht as (top & Htop & Hin). eauto. }
    split; [|split].
    + intros row t Hin Ht. exists m. split; [reflexivity|].
      assert (Hmem : In (Timestamp t) (Timestamp a :: rest)).
      { rewrite <- E. apply filter_In. split; [|reflexivity].
        rewrite <- Ht. now apply in_map. }
      split.
      * destruct Hmem as [Heq|Hin']; [injection Heq as <-; exact Hle | now apply Hub].
      * apply Hback. destruct Hwit as [->|Hin']; [now left | now right].
    + intro Hna. specialize (Hnone Hna). congruence.
    + intro Hempty. rewrite Hempty in E. simpl in E. discriminate.
Qed.

Lemma latestDate_max_witness :
  get_loc (columns sample_frame) "Date" = Some 0%nat /\
  Forall (fun row => is_datetime (at_loc 0 row) = true) (values sample_frame) /\
  exists latest, latestDate sample_frame = inr latest.
Proof.
  assert (Hall : Forall (fun row => is_datetime (at_loc 0 row) = true)
                   (values sample_frame))
    by (repeat constructor).
  split; [reflexivity|]. split; [exact Hall|].
  destruct (latestDate_max sample_frame 0 eq_refl Hall) as (latest & Hl & _).
  exists latest. exact Hl.
Defined.

(** C3, as the claim has it, fails on a file with a header and no data
    line: the file loads to a frame without rows, and [latestDate] returns
    NaT on it instead of raising. *)
Lemma latestDate_counterexample :
  load_data decimal_number iso_date header_only_fs csv_path = inr no_rows /\
  values no_rows = [] /\
  latestDate no_rows = inr NA.
Proof. vm_compute. auto. Qed.

(** ** The run of the script when the file cannot be read *)

Section Startup.

Variable parse_number : string -> option Z.
Variable parse_datetime : string -> option Z.
Variable argsort : list cell -> result (list nat).
Variable numeric_dtype : list cell -> bool.
Variable summarize : list cell -> stats.

Let the_app := app parse_number parse_datetime argsort numeric_dtype summarize.
Let the_load := load_data parse_number parse_datetime.

(** C7, as the script has it.  When nothing is at the path, [load_data]
    raises [FileNotFoundError]; the script catches it, shows its message
    and stops the run, so the page holds the message and nothing after it.
    When the file is there but may not be read, [load_data] raises
    [PermissionError], which the handler of lines 28 to 32 does not name:
    no message is shown and the exception leaves the script. *)
Theorem missing_file_halts (fs : filesystem) (w : widgets) :
  (fs csv_path = NoEntry ->
   the_load fs csv_path = inl FileNotFoundError /\
   run (the_app fs w)
   = (Halted, [st_set_page_config; st_error not_found_message])) /\
  (fs csv_path = Denied ->
   the_load fs csv_path = inl PermissionError /\
   run (the_app fs w) = (Uncaught PermissionError, [st_set_page_config])).
Proof.
  split; intro Hfs.
  - assert (Hload : the_load fs csv_path = inl FileNotFoundError)
      by (unfold the_load, load_data, read_csv; now rewrite Hfs).
    split; [exact Hload|].
    exact (app_when_load_fails parse_number parse_datetime argsort numeric_dtype
             summarize fs w _ Hload).
  - assert (Hload : the_load fs csv_path = inl PermissionError)
      by (unfold the_load, load_data, read_csv; now rewrite Hfs).
    split; [exact Hload|].
    exact (app_when_load_fails parse_number parse_datetime argsort numeric_dtype
             summarize fs w _ Hload).
Qed.

End Startup.

Lemma missing_file_halts_witness :
  no_file csv_path = NoEntry /\
  run (app decimal_number iso_date argsort_stable all_numbers count_present
         no_file (mkWidgets false None))
  = (Halted, [st_set_page_config; st_error not_found_message]).
Proof.
  split; [reflexivity|].
  apply (missing_file_halts decimal_number iso_date argsort_stable all_numbers
           count_present no_file (mkWidgets false None)).
  reflexivity.
Defined.

(** C7, as the claim has it, fails for a file that is there and may not be
    read: the error is not a [FileNotFoundError], no message is shown, and
    the exception is not caught. *)
Lemma unreadable_file_counterexample :
  locked_file csv_path = Denied /\
  load_data decimal_number iso_date locked_file csv_path = inl PermissionError /\
  run (app decimal_number iso_date argsort_stable all_numbers count_present
         locked_file (mkWidgets false None))
  = (Uncaught PermissionError, [st_set_page_config]).
Proof. vm_compute. auto. Qed.

(** ** Columns under [read_csv], [setitem] and [drop] *)

Lemma get_loc_bound (labels : list string) (key : string) : forall j,
  get_loc labels key = Some j -> (j < List.length labels)%nat.
Proof.
  induction labels as [|l ls IH]; simpl; intros j H; [discriminate|].
  destruct (String.eqb l key).
  - injection H as <-. lia.
  - destruct (get_loc ls key) as [k|]; [|discriminate].
    injection H as <-. specialize (IH k eq_refl). lia.
Qed.

Lemma get_loc_none (labels : list string) (key : string) :
  get_loc labels key = None <-> ~ In key labels.
Proof.
  induction labels as [|l ls IH]; simpl; [tauto|].
  destruct (String.eqb l key) eqn:E.
  - apply String.eqb_eq in E. subst. split; [discriminate | tauto].
  - apply String.eqb_neq in E. destruct (get_loc ls key); simpl.
    + split; [discriminate|]. intro H. exfalso. apply H. right.
      apply Decidable.not_not; [|intro Hn; apply IH in Hn; discriminate].
      unfold Decidable.decidable. destruct (in_dec string_dec key ls); auto.
    + split; [|reflexivity]. intros _ [H|H]; [congruence | now apply IH].
Qed.

Lemma at_loc_set_nth_same {v : cell} (row : list cell) : forall j,
  (j < List.length row)%nat -> at_loc j (set_nth j v row) = v.
Proof.
  unfold at_loc. induction row as [|c row IH]; simpl; intros j Hj; [lia|].
  destruct j; simpl; [reflexivity|]. apply IH. lia.
Qed.

Lemma at_loc_set_nth_other {v : cell} (row : list cell) : forall j k,
  k <> j -> at_loc k (set_nth j v row) = at_loc k row.
Proof.
  unfold at_loc. induction row as [|c row IH]; intros j k Hk;
    [destruct j, k; reflexivity|].
  destruct j, k; simpl; try reflexivity; try congruence.
  apply IH. congruence.
Qed.

Lemma zip_with_length {A B C : Type} (f : A -> B -> C) (l : list A) : forall m,
  List.length l = List.length m -> List.length (zip_with f l m) = List.length l.
Proof.
  induction l as [|a l IH]; intros [|b m] H; simpl in *; try discriminate; auto.
Qed.

Lemma map_zip_with {A B C D : Type} (g : C -> D) (f : A -> B -> C) (l : list A) :
  forall m, map g (zip_with f l m) = zip_with (fun a b => g (f a b)) l m.
Proof.
  induction l as [|a l IH]; intros [|b m]; simpl; try reflexivity. now rewrite IH.
Qed.


Lemma zip_with_fst {A B C : Type} (g : A -> C) (l : list A) : forall (m : list B),
  List.length l = List.length m -> zip_with (fun a _ => g a) l m = map g l.
Proof.
  induction l as [|a l IH]; intros [|b m] H; simpl in *; try discriminate; auto.
  f_equal. apply IH. lia.
Qed.

Lemma zip_with_snd {A B : Type} (l : list A) : forall (m : list B),
  List.length l = List.length m -> zip_with (fun _ b => b) l m = m.
Proof.
  induction l as [|a l IH]; intros [|b m] H; simpl in *; try discriminate; auto.
  f_equal. apply IH. lia.
Qed.

Lemma zip_with_ext_in {A B C : Type} (f g : A -> B -> C) (l : list A) : forall m,
  (forall a b, In a l -> f a b = g a b) -> zip_with f l m = zip_with g l m.
Proof.
  induction l as [|a l IH]; intros [|b m] H; simpl; try reflexivity.
  rewrite (H a b (or_introl eq_refl)). f_equal. apply IH.
  intros a' b' Hin. apply H. now right.
Qed.

(** The cell under a label that stays is the same after the drop. *)
Lemma drop_cells_keeps (key c : string) (labels : list string) : forall j,
  c <> key ->
  get_loc labels c = Some j ->
  exists j',
    get_loc (filter (other_label key) labels) c = Some j' /\
    forall row, at_loc j' (drop_cells key labels row) = at_loc j row.
Proof.
  unfold at_loc, drop_cells.
  induction labels as [|l ls IH]; simpl; intros j Hc Hloc; [discriminate|].
  destruct (String.eqb l c) eqn:El.
  - apply String.eqb_eq in El. subst l. injection Hloc as <-.
    unfold other_label at 1. rewrite (proj2 (String.eqb_neq c key) Hc). simpl.
    rewrite String.eqb_refl. exists 0%nat. split; [reflexivity|].
    intros [|x row]; simpl; [reflexivity|].
    unfold other_label. now rewrite (proj2 (String.eqb_neq c key) Hc).
  - destruct (get_loc ls c) as [k|] eqn:Ek; [|discriminate]. injection Hloc as <-.
    destruct (IH k Hc eq_refl) as (k' & Hk' & Hrow).
    unfold other_label at 1. destruct (String.eqb l key) eqn:Ekey; simpl.
    + exists k'. split; [exact Hk'|].
      intros [|x row]; simpl.
      * now destruct k'.
      * unfold other_label at 1. rewrite Ekey. simpl. apply Hrow.
    + rewrite El, Hk'. exists (S k'). split; [reflexivity|].
      intros [|x row]; simpl.
      * reflexivity.
      * unfold other_label at 1. rewrite Ekey. simpl. apply Hrow.
Qed.

Lemma drop_cells_absent (key c : string) (labels : list string) :
  get_loc labels c = None -> get_loc (filter (other_label key) labels) c = None.
Proof.
  rewrite !get_loc_none. intros H Hin. apply filter_In in Hin. tauto.
Qed.

Lemma filter_other_label (key : string) (labels : list string) :
  ~ In key (filter (other_label key) labels).
Proof.
  intro H. apply filter_In in H as [_ H]. unfold other_label in H.
  now rewrite String.eqb_refl in H.
Qed.

Lemma get_loc_nth (labels : list string) (key : string) : forall j,
  get_loc labels key = Some j -> nth j labels "" = key.
Proof.
  induction labels as [|l ls IH]; simpl; intros j H; [discriminate|].
  destruct (String.eqb l key) eqn:E.
  - injection H as <-. now apply String.eqb_eq.
  - destruct (get_loc ls key) as [k|]; [|discriminate].
    injection H as <-. now apply IH.
Qed.

Lemma mapM_inr {A B : Type} (f : A -> result B) (l : list A) : forall l',
  mapM f l = inr l' -> Forall2 (fun a b => f a = inr b) l l'.
Proof.
  induction l as [|a l IH]; simpl; intros l' H.
  - injection H as <-. constructor.
  - destruct (f a) as [e|b] eqn:Ea; [discriminate|]. simpl in H.
    destruct (mapM f l) as [e|bs]; [discriminate|]. simpl in H.
    injection H as <-. constructor; auto.
Qed.

Lemma mapM_inl {A B : Type} (f : A -> result B) (l : list A) (e : exn) :
  mapM f l = inl e -> exists a, In a l /\ f a = inl e.
Proof.
  induction l as [|a l IH]; simpl; intro H; [discriminate|].
  destruct (f a) as [e'|b] eqn:Ea; simpl in H.
  - injection H as <-. eauto.
  - destruct (mapM f l) as [e'|bs]; simpl in H; [|discriminate].
    injection H as <-. destruct (IH eq_refl) as (x & Hin & Hx). eauto.
Qed.


Lemma nth_map_in {A B : Type} (f : A -> B) (l : list A) : forall j d d',
  (j < List.length l)%nat -> nth j (map f l) d = f (nth j l d').
Proof.
  induction l as [|a l IH]; simpl; intros [|j] d d' H; try lia; auto.
  apply IH. lia.
Qed.

Section Loading.

Variable parse_number : string -> option Z.
Variable parse_datetime : string -> option Z.

Let the_load := load_data parse_number parse_datetime.
Let the_kinds := column_kinds parse_number.
Let the_record := convert_record parse_number.
Let the_dates := to_datetime parse_datetime.

Lemma column_kinds_length (header : list string) (records : list (list string)) :
  List.length (the_kinds header records) = List.length header.
Proof. unfold the_kinds, column_kinds. now rewrite length_map, length_seq. Qed.

Lemma convert_record_length (kinds : list bool) (record : list string) :
  List.length (the_record kinds record) = List.length kinds.
Proof.
  unfold the_record, convert_record.
  rewrite length_map, length_combine, length_seq. apply Nat.min_id.
Qed.


Let the_frame := frame_read parse_number.

Lemma frame_read_rows (header : list string) (records : list (list string)) :
  forall row, In row (values (the_frame header records)) ->
              List.length row = List.length header.
Proof.
  intros row Hin. unfold the_frame, frame_read in Hin. simpl in Hin.
  apply in_map_iff in Hin as (r & <- & _). fold the_kinds the_record.
  now rewrite convert_record_length, column_kinds_length.
Qed.

Lemma to_datetime_length (col parsed : list cell) :
  the_dates col = inr parsed -> List.length parsed = List.length col.
Proof.
  intro H. apply mapM_inr in H. symmetry. now apply (Forall2_length H).
Qed.

(** [load_data], step by step, on a file that is there. *)
Lemma load_data_steps (fs : filesystem) (path : string)
    (header : list string) (records : list (list string)) :
  fs path = Content header records ->
  the_load fs path
  = match get_loc header "Date" with
    | None => inl (KeyError "Date")
    | Some j =>
        match the_dates (map (at_loc j) (values (the_frame header records))) with
        | inl e => inl e
        | inr parsed =>
            match get_loc header "Average_Price_SA" with
            | None => inl (KeyError "Average_Price_SA")
            | Some _ =>
                inr (mkDataFrame
                       (filter (other_label "Average_Price_SA") header)
                       (map (drop_cells "Average_Price_SA" header)
                          (zip_with (fun row v => set_nth j v row)
                             (values (the_frame header records)) parsed)))
            end
        end
    end.
Proof.
  intro Hfs. unfold the_load, load_data, read_csv. rewrite Hfs.
  change (frame_read parse_number header records)
    with (the_frame header records).
  cbn [bind ret]. unfold getitem at 1.
  change (columns (the_frame header records)) with header.
  destruct (get_loc header "Date") as [j|] eqn:Hj; cbn [bind ret raise];
    [|reflexivity].
  change (to_datetime parse_datetime) with the_dates.
  destruct (the_dates (map (at_loc j) (values (the_frame header records))))
    as [e|parsed] eqn:Hd; cbn [bind]; [reflexivity|].
  unfold setitem.
  rewrite (to_datetime_length _ _ Hd), length_map, Nat.eqb_refl. cbn [negb].
  change (columns (the_frame header records)) with header.
  rewrite Hj. cbn [bind ret]. unfold drop. cbn [columns values].
  destruct (get_loc header "Average_Price_SA"); reflexivity.
Qed.

Variable numeric_dtype : list cell -> bool.
Variable summarize : list cell -> stats.

Lemma cleaned_length (header : list string) (rows : list (list cell)) (j : nat)
    (parsed : list cell) :
  List.length parsed = List.length rows ->
  List.length (values (cleaned header rows j parsed)) = List.length rows.
Proof.
  intro H. unfold cleaned. cbn [values].
  rewrite length_map. apply zip_with_length. now symmetry.
Qed.

Lemma getitem_cleaned_date (header : list string) (rows : list (list cell)) (j : nat)
    (parsed : list cell) :
  (forall row, In row rows -> List.length row = List.length header) ->
  get_loc header "Date" = Some j ->
  List.length parsed = List.length rows ->
  getitem (cleaned header rows j parsed) "Date" = inr parsed.
Proof.
  intros Hrect Hj Hlen.
  destruct (drop_cells_keeps "Average_Price_SA" "Date" header j) as (j' & Hj' & Hcell);
    [discriminate | exact Hj |].
  unfold getitem, cleaned. cbn [columns values]. rewrite Hj'. unfold ret. f_equal.
  rewrite map_map.
  rewrite (map_ext _ (at_loc j)) by (intro row; apply Hcell).
  rewrite map_zip_with.
  rewrite (zip_with_ext_in _ (fun _ v => v)).
  - apply zip_with_snd. now symmetry.
  - intros row v Hin. apply at_loc_set_nth_same.
    rewrite (Hrect row Hin). now apply (get_loc_bound header "Date").
Qed.

Lemma getitem_cleaned_other (header : list string) (rows : list (list cell)) (j : nat)
    (parsed : list cell) (c : string) :
  get_loc header "Date" = Some j ->
  List.length parsed = List.length rows ->
  c <> "Date" -> c <> "Average_Price_SA" ->
  getitem (cleaned header rows j parsed) c = getitem (mkDataFrame header rows) c.
Proof.
  intros Hj Hlen Hc1 Hc2. unfold getitem, cleaned. cbn [columns values].
  destruct (get_loc header c) as [k|] eqn:Hk.
  - destruct (drop_cells_keeps "Average_Price_SA" c header k Hc2 Hk) as (k' & Hk' & Hcell).
    rewrite Hk'. unfold ret. f_equal.
    rewrite map_map.
    rewrite (map_ext _ (at_loc k)) by (intro row; apply Hcell).
    rewrite map_zip_with.
    rewrite (zip_with_ext_in _ (fun row _ => at_loc k row)).
    + apply zip_with_fst. now symmetry.
    + intros row v _. apply at_loc_set_nth_other.
      intros ->. apply get_loc_nth in Hj, Hk. congruence.
  - now rewrite (drop_cells_absent _ _ _ Hk).
Qed.

(** What a successful [load_data] went through. *)
Lemma load_data_cleaned (fs : filesystem) (path : string) (df : DataFrame) :
  the_load fs path = inr df ->
  exists header records j parsed,
    fs path = Content header records /\
    get_loc header "Date" = Some j /\
    the_dates (map (at_loc j) (values (the_frame header records))) = inr parsed /\
    List.length parsed = List.length (values (the_frame header records)) /\
    df = cleaned header (values (the_frame header records)) j parsed.
Proof.
  intro Hload.
  destruct (fs path) as [| |header records] eqn:Hfs;
    try (unfold the_load, load_data, read_csv in Hload; rewrite Hfs in Hload;
         discriminate).
  rewrite (load_data_steps fs path header records Hfs) in Hload.
  destruct (get_loc header "Date") as [j|] eqn:Hj; [|discriminate].
  destruct (the_dates (map (at_loc j) (values (the_frame header records))))
    as [e|parsed] eqn:Hd; [discriminate|].
  destruct (get_loc header "Average_Price_SA") as [a|] eqn:Ha; [|discriminate].
  exists header, records, j, parsed.
  split; [reflexivity|]. split; [exact Hj|]. split; [exact Hd|]. split.
  - rewrite (to_datetime_length _ _ Hd). apply length_map.
  - injection Hload as <-. reflexivity.
Qed.


Lemma to_datetime_error (col : list cell) (e : exn) :
  the_dates col = inl e ->
  exists s,
    e = ValueError s /\
    ((In (Text s) col /\ is_nat_string s = false /\ parse_datetime s = None) \/
     (exists z, In (Number z) col /\ in_bounds z = false)).
Proof.
  intro H. apply mapM_inl in H as (c & Hin & Hc).
  destruct c as [|s|z|t]; simpl in Hc; try discriminate.
  - destruct (is_nat_string s) eqn:En; [discriminate|].
    destruct (parse_datetime s) eqn:Ep; [discriminate|].
    injection Hc as <-. eauto 6.
  - destruct (z =? iNaT)%Z; [discriminate|].
    destruct (in_bounds z) eqn:Eb; [discriminate|].
    injection Hc as <-. eauto 6.
Qed.


Lemma describe_labels (df : DataFrame) (table : list (string * stats)) :
  describe numeric_dtype summarize df = inr table ->
  forall l, In l (map fst table) -> In l (columns df).
Proof.
  unfold describe. intros H l Hl.
  assert (Hnamed : forall lc, In lc (named_columns df) -> In (fst lc) (columns df)).
  { intros lc Hin. unfold named_columns in Hin.
    apply in_map_iff in Hin as ([l' k] & <- & Hin). simpl.
    now apply in_combine_l in Hin. }
  destruct (columns df) as [|c0 cs] eqn:Hcols; [discriminate|].
  injection H as <-. rewrite map_map in Hl. simpl in Hl.
  apply in_map_iff in Hl as (lc & <- & Hin).
  destruct (filter (fun lc => numeric_dtype (snd lc)) (named_columns df)) eqn:Hsel.
  - now apply Hnamed.
  - rewrite <- Hsel in Hin. apply filter_In in Hin as [Hin _]. now apply Hnamed.
Qed.

(** C2, as the script has it.  A file without an [Average_Price_SA] column
    does not load: [drop] raises [KeyError] for the label, unless the
    [Date] column is missing or fails to parse, which is reported first.
    When [load_data] returns a frame, the column is gone from it: the
    label is not among its columns, the summary statistics have no entry
    under it, and the region list is the one of the file as read. *)
Theorem load_data_drops_column (fs : filesystem) (path : string) :
  (forall header records,
      fs path = Content header records ->
      get_loc header "Average_Price_SA" = None ->
      exists e,
        the_load fs path = inl e /\
        (e = KeyError "Average_Price_SA" \/ e = KeyError "Date" \/
         exists s, e = ValueError s) /\
        (forall j parsed,
            get_loc header "Date" = Some j ->
            the_dates (map (at_loc j) (values (the_frame header records))) = inr parsed ->
            e = KeyError "Average_Price_SA")) /\
  (forall df,
      the_load fs path = inr df ->
      get_loc (columns df) "Average_Price_SA" = None /\
      getitem df "Average_Price_SA" = inl (KeyError "Average_Price_SA") /\
      (forall table l,
          summaryStatistics numeric_dtype summarize df = inr table ->
          In l (map fst table) -> l <> "Average_Price_SA") /\
      exists header records,
        fs path = Content header records /\
        uniqueRegions df = uniqueRegions (the_frame header records)).
Proof.
  split.
  - intros header records Hfs Hsa.
    rewrite (load_data_steps fs path header records Hfs), Hsa.
    destruct (get_loc header "Date") as [j|] eqn:Hj.
    + destruct (the_dates (map (at_loc j) (values (the_frame header records))))
        as [e|parsed] eqn:Hd.
      * exists e. split; [reflexivity|].
        destruct (to_datetime_error _ _ Hd) as (s & -> & _).
        split; [eauto|]. intros j' parsed' Hj' Hd'.
        injection Hj' as <-. rewrite Hd in Hd'. discriminate.
      * exists (KeyError "Average_Price_SA"). auto.
    + exists (KeyError "Date"). split; [reflexivity|]. split; [auto|].
      intros j parsed Hj'. discriminate.
  - intros df Hload.
    destruct (load_data_cleaned fs path df Hload)
      as (header & records & j & parsed & Hfs & Hj & Hd & Hlen & ->).
    assert (Hgone : get_loc (columns (cleaned header (values (the_frame header records))
                                        j parsed)) "Average_Price_SA" = None).
    { unfold cleaned. cbn [columns]. apply get_loc_none, filter_other_label. }
    split; [exact Hgone|]. split; [|split].
    + unfold getitem. now rewrite Hgone.
    + intros table l Htable Hl ->.
      apply (describe_labels _ table Htable) in Hl.
      now apply get_loc_none in Hgone.
    + exists header, records. split; [exact Hfs|].
      unfold uniqueRegions.
      now rewrite (getitem_cleaned_other header _ j parsed "Region_Name" Hj Hlen)
        by discriminate.
Qed.


(** The frame [load_data] returns has a datetime [Date] column, which is
    what the statements on [latestDate] and [rowsAtDate] ask of a frame. *)
Lemma load_data_datetime_column (fs : filesystem) (path : string) (df : DataFrame) :
  the_load fs path = inr df ->
  exists j,
    get_loc (columns df) "Date" = Some j /\
    Forall (fun row => is_datetime (at_loc j row) = true) (values df).
Proof.
  intro Hload.
  destruct (load_data_cleaned fs path df Hload)
    as (header & records & j & parsed & Hfs & Hj & Hd & Hlen & ->).
  pose proof (getitem_cleaned_date header _ j parsed
                (frame_read_rows header records) Hj Hlen) as Hdate.
  unfold getitem in Hdate.
  destruct (get_loc (columns (cleaned header (values (the_frame header records)) j parsed))
              "Date") as [j'|]; [|discriminate].
  exists j'. split; [reflexivity|].
  injection Hdate as Hcol.
  assert (Hparsed : Forall (fun c => is_datetime c = true) parsed).
  { apply mapM_inr in Hd. clear - Hd.
    induction Hd as [|c p col parsed' Hc _ IH]; constructor; [|exact IH].
    destruct c as [|s|z|t]; simpl in Hc.
    - now injection Hc as <-.
    - destruct (is_nat_string s); [now injection Hc as <-|].
      destruct (parse_datetime s); [now injection Hc as <-|discriminate].
    - destruct (z =? iNaT)%Z; [now injection Hc as <-|].
      destruct (in_bounds z); [now injection Hc as <-|discriminate].
    - now injection Hc as <-. }
  rewrite <- Hcol in Hparsed. now apply Forall_map in Hparsed.
Qed.

End Loading.


Lemma load_data_drops_column_witness :
  unadjusted_fs csv_path = Content unadjusted_header unadjusted_records /\
  get_loc unadjusted_header "Average_Price_SA" = None /\
  exists e, load_data decimal_number iso_date unadjusted_fs csv_path = inl e.
Proof.
  split; [reflexivity|]. split; [reflexivity|].
  destruct (load_data_drops_column decimal_number iso_date all_numbers count_present
              unadjusted_fs csv_path) as [Hfail _].
  destruct (Hfail unadjusted_header unadjusted_records eq_refl eq_refl) as (e & He & _).
  exists e. exact He.
Defined.

(** C2, as the claim has it, fails on a file without the column: the
    [Date] column is there and parses, and [load_data] raises [KeyError]. *)
Lemma load_without_column_counterexample :
  get_loc unadjusted_header "Average_Price_SA" = None /\
  load_data decimal_number iso_date unadjusted_fs csv_path
  = inl (KeyError "Average_Price_SA").
Proof. vm_compute. auto. Qed.


Example load_bad_date :
  load_data decimal_number iso_date bad_date_fs csv_path = inl (ValueError "yesterday").
Proof. vm_compute. reflexivity. Qed.


(** ** Sorting by price *)

Example tie_stable :
  topNByPrice argsort_stable tie_frame 10
  = inr (mkDataFrame (columns tie_frame) (spec_topNByPrice 2 (values tie_frame) 10)).
Proof. reflexivity. Qed.

Lemma take_all {A : Type} (d : A) (l : list A) : take d l (seq 0 (List.length l)) = l.
Proof.
  unfold take. induction l as [|a l IH]; [reflexivity|].
  cbn [List.length seq map nth]. f_equal.
  rewrite <- seq_shift, map_map. exact IH.
Qed.

Lemma take_permutation {A : Type} (d : A) (l : list A) (p : list nat) :
  Permutation p (seq 0 (List.length l)) -> Permutation (take d l p) l.
Proof.
  intro H. rewrite <- (take_all d l) at 2. unfold take. now apply Permutation_map.
Qed.

Lemma combine_seq_nth {A : Type} (d : A) (l : list A) : forall s i c,
  In (i, c) (combine (seq s (List.length l)) l) ->
  (s <= i)%nat /\ nth (i - s) l d = c.
Proof.
  induction l as [|a l IH]; simpl; intros s i c H; [destruct H|].
  destruct H as [H|H].
  - injection H as <- <-. split; [lia|]. now rewrite Nat.sub_diag.
  - apply IH in H as [Hs Hn]. split; [lia|].
    replace (i - s)%nat with (S (i - S s)) by lia. exact Hn.
Qed.

Lemma keyed_nth {A : Type} (d : A) (l : list A) (p : nat * A) :
  In p (combine (seq 0 (List.length l)) l) -> nth (fst p) l d = snd p.
Proof.
  destruct p as [i c]. intro H. apply (combine_seq_nth d) in H as [_ H].
  now rewrite Nat.sub_0_r in H.
Qed.

Lemma map_fst_combine_seq {A : Type} (l : list A) (s : nat) :
  map fst (combine (seq s (List.length l)) l) = seq s (List.length l).
Proof.
  revert s. induction l as [|a l IH]; intro s; simpl; [reflexivity|].
  now rewrite IH.
Qed.

Lemma map_snd_combine_seq {A : Type} (l : list A) (s : nat) :
  map snd (combine (seq s (List.length l)) l) = l.
Proof.
  revert s. induction l as [|a l IH]; intro s; simpl; [reflexivity|].
  now rewrite IH.
Qed.

Lemma filter_complement {A : Type} (f : A -> bool) (l : list A) :
  Permutation (filter f l ++ filter (fun a => negb (f a)) l) l.
Proof.
  induction l as [|a l IH]; simpl; [constructor|].
  destruct (f a); simpl.
  - now apply perm_skip.
  - apply Permutation_sym, Permutation_cons_app, Permutation_sym, IH.
Qed.

Lemma StronglySorted_app {A : Type} (R : A -> A -> Prop) (l m : list A) :
  StronglySorted R l -> StronglySorted R m ->
  (forall a b, In a l -> In b m -> R a b) ->
  StronglySorted R (l ++ m).
Proof.
  induction 1 as [|a l Hl IH Ha]; intros Hm Hlm; simpl; [assumption|].
  constructor.
  - apply IH; [assumption|]. intros x y Hx Hy. apply Hlm; [now right | assumption].
  - apply Forall_app. split; [assumption|].
    apply Forall_forall. intros y Hy. apply Hlm; [now left | assumption].
Qed.

Lemma StronglySorted_rev {A : Type} (R : A -> A -> Prop) (l : list A) :
  StronglySorted R l -> StronglySorted (fun a b => R b a) (rev l).
Proof.
  induction 1 as [|a l Hl IH Ha]; simpl; [constructor|].
  apply StronglySorted_app; [assumption | repeat constructor |].
  intros x y Hx [<-|[]]. apply in_rev in Hx.
  rewrite Forall_forall in Ha. now apply Ha.
Qed.

Lemma StronglySorted_map {A B : Type} (R : A -> A -> Prop) (S : B -> B -> Prop)
    (f : A -> B) (l : list A) :
  (forall a b, In a l -> In b l -> R a b -> S (f a) (f b)) ->
  StronglySorted R l -> StronglySorted S (map f l).
Proof.
  intros Hf H. induction H as [|a l Hl IH Ha]; simpl; [constructor|].
  constructor.
  - apply IH. intros x y Hx Hy. apply Hf; now right.
  - apply Forall_map. rewrite Forall_forall in *. intros y Hy.
    apply Hf; [now left | now right | now apply Ha].
Qed.

(** ** The two insertion sorts meet what is asked of [argsort] *)

Section Insertion.

Variable before : Z -> Z -> bool.
Hypothesis before_true : forall a b, before a b = true -> (a <= b)%Z.
Hypothesis before_false : forall a b, before a b = false -> (b <= a)%Z.

Let by_key (p q : nat * Z) : Prop := (snd p <= snd q)%Z.

Lemma insert_pair_permutation (p : nat * Z) (l : list (nat * Z)) :
  Permutation (insert_pair before p l) (p :: l).
Proof.
  induction l as [|q l IH]; simpl; [apply Permutation_refl|].
  destruct (before (snd p) (snd q)); [apply Permutation_refl|].
  eapply Permutation_trans; [apply perm_skip, IH | apply perm_swap].
Qed.

Lemma insertion_sort_permutation (l : list (nat * Z)) :
  Permutation (insertion_sort before l) l.
Proof.
  induction l as [|p l IH]; simpl; [constructor|].
  eapply Permutation_trans; [apply insert_pair_permutation | now apply perm_skip].
Qed.

Lemma insert_pair_sorted (p : nat * Z) (l : list (nat * Z)) :
  StronglySorted by_key l -> StronglySorted by_key (insert_pair before p l).
Proof.
  induction 1 as [|q l Hl IH Hq]; simpl; [repeat constructor|].
  destruct (before (snd p) (snd q)) eqn:E.
  - constructor; [now constructor|].
    apply before_true in E. constructor; [exact E|].
    rewrite Forall_forall in *. intros r Hr. specialize (Hq r Hr).
    unfold by_key in *. lia.
  - constructor; [exact IH|].
    apply before_false in E. rewrite Forall_forall in *. intros r Hr.
    apply (Permutation_in _ (insert_pair_permutation p l)) in Hr.
    destruct Hr as [<-|Hr]; [exact E | now apply Hq].
Qed.

Lemma insertion_sort_sorted (l : list (nat * Z)) :
  StronglySorted by_key (insertion_sort before l).
Proof.
  induction l as [|p l IH]; simpl; [constructor | now apply insert_pair_sorted].
Qed.

Lemma argsort_by_sorts : argsort_sorts (argsort_by before).
Proof.
  intros xs Hnum. unfold argsort_by. rewrite Hnum.
  set (pairs := combine (seq 0 (List.length xs)) (map key_of xs)).
  exists (map fst (insertion_sort before pairs)).
  split; [reflexivity|].
  assert (Hperm : Permutation (insertion_sort before pairs) pairs)
    by apply insertion_sort_permutation.
  split.
  - eapply Permutation_trans; [apply Permutation_map, Hperm|].
    unfold pairs. rewrite <- (length_map key_of xs). rewrite map_fst_combine_seq.
    apply Permutation_refl.
  - unfold take. rewrite map_map.
    apply (StronglySorted_map by_key); [|apply insertion_sort_sorted].
    intros p q Hp Hq Hpq.
    assert (Hcell : forall r, In r (insertion_sort before pairs) ->
                    nth (fst r) xs NA = Number (snd r)).
    { intros r Hr. apply (Permutation_in _ Hperm) in Hr. unfold pairs in Hr.
      assert (Hlt : (fst r < List.length xs)%nat).
      { destruct r as [i z]. apply in_combine_l in Hr. apply in_seq in Hr. simpl. lia. }
      rewrite <- (length_map key_of xs) in Hr.
      apply (keyed_nth 0%Z) in Hr.
      rewrite (nth_map_in key_of xs (fst r) 0%Z NA Hlt) in Hr.
      rewrite forallb_forall in Hnum.
      specialize (Hnum (nth (fst r) xs NA) (nth_In xs NA Hlt)).
      destruct (nth (fst r) xs NA); try discriminate.
      simpl in Hr. now rewrite Hr. }
    rewrite (Hcell p Hp), (Hcell q Hq). unfold not_above. simpl.
    apply Z.ltb_ge. exact Hpq.
Qed.

End Insertion.

Lemma argsort_stable_sorts : argsort_sorts argsort_stable.
Proof.
  apply argsort_by_sorts; intros a b H.
  - now apply Z.leb_le.
  - apply Z.leb_gt in H. lia.
Qed.

Lemma at_loc_nth (j : nat) (rows : list (list cell)) (i : nat) :
  at_loc j (nth i rows []) = nth i (map (at_loc j) rows) NA.
Proof.
  destruct (Nat.lt_ge_cases i (List.length rows)) as [Hlt|Hge].
  - symmetry. now apply nth_map_in.
  - rewrite !nth_overflow by (rewrite ?length_map; exact Hge).
    unfold at_loc. now destruct j.
Qed.

Lemma all_missing_sorted (l : list cell) :
  Forall (fun c => c = NA) l -> StronglySorted comes_before l.
Proof.
  induction 1 as [|c l -> Hl IH]; constructor; [assumption|].
  apply Forall_forall. intros b Hb. rewrite Forall_forall in Hl.
  now rewrite (Hl b Hb).
Qed.

Section Ranking.

Variable argsort : list cell -> result (list nat).
Hypothesis argsort_ok : argsort_sorts argsort.

Lemma nargsort_descending (items : list cell) :
  Forall (fun c => price_cell c = true) items ->
  exists indexer,
    nargsort argsort items false = inr indexer /\
    Permutation indexer (seq 0 (List.length items)) /\
    StronglySorted comes_before (take NA items indexer).
Proof.
  intro Hprice. unfold nargsort. cbv beta zeta iota.
  set (keyed := combine (seq 0 (List.length items)) items).
  set (present := filter (fun p => notna (snd p)) keyed).
  set (absent := filter (fun p => isna (snd p)) keyed).
  assert (Hkeyed : forall p, In p keyed -> nth (fst p) items NA = snd p)
    by (intros p Hp; now apply keyed_nth).
  assert (Hpresent : forall p, In p present -> is_number (snd p) = true).
  { intros p Hp. apply filter_In in Hp as [Hp Hn].
    assert (Hin : In (snd p) items).
    { rewrite <- (map_snd_combine_seq items 0). now apply in_map. }
    rewrite Forall_forall in Hprice. specialize (Hprice _ Hin).
    unfold price_cell, notna in *. destruct (snd p); simpl in *; try discriminate; auto. }
  assert (Hnum : forallb is_number (rev (map snd present)) = true).
  { apply forallb_forall. intros c Hc. apply in_rev in Hc.
    apply in_map_iff in Hc as (p & <- & Hp). now apply Hpresent. }
  destruct (argsort_ok _ Hnum) as (order & Horder & Hperm & Hsorted).
  rewrite Horder. cbn [bind ret].
  eexists. split; [reflexivity|].
  assert (Hlen : List.length (rev (map snd present)) = List.length (rev (map fst present)))
    by (now rewrite !length_rev, !length_map).
  rewrite Hlen in Hperm.
  assert (Hbound : forall k, In k order -> (k < List.length (rev present))%nat).
  { intros k Hk. apply (Permutation_in _ Hperm) in Hk. apply in_seq in Hk.
    rewrite length_rev, length_map in Hk. rewrite length_rev. lia. }
  split.
  - apply Permutation_trans with (map fst present ++ map fst absent).
    + apply Permutation_app_tail.
      eapply Permutation_trans; [apply Permutation_sym, Permutation_rev|].
      eapply Permutation_trans; [apply take_permutation, Hperm|].
      apply Permutation_sym, Permutation_rev.
    + rewrite <- map_app.
      rewrite <- (map_fst_combine_seq items 0). fold keyed.
      apply Permutation_map. unfold present, absent.
      rewrite (filter_ext (fun p => isna (snd p)) (fun p => negb (notna (snd p))))
        by (intro p; unfold notna; now rewrite negb_involutive).
      apply filter_complement.
  - unfold take. rewrite map_app, map_rev, map_map.
    apply StronglySorted_app.
    + rewrite (map_ext_in _ (fun k => nth k (rev (map snd present)) NA)).
      * apply StronglySorted_rev in Hsorted. unfold take in Hsorted.
        rewrite <- (map_id (rev (map _ order))).
        apply (StronglySorted_map (fun a b => not_above b a) comes_before (fun c => c));
          [|exact Hsorted].
        intros a b Ha Hb Hab.
        assert (Hnumber : forall c,
                   In c (rev (map (fun i => nth i (rev (map snd present)) NA) order)) ->
                   is_number c = true).
        { intros c Hc. apply in_rev in Hc.
          apply in_map_iff in Hc as (k & <- & Hk).
          rewrite forallb_forall in Hnum. apply Hnum, nth_In.
          specialize (Hbound k Hk).
          now rewrite length_rev, length_map, <- length_rev. }
        apply Hnumber in Ha, Hb.
        destruct a, b; try discriminate. exact Hab.
      * intros k Hk. specialize (Hbound k Hk).
        rewrite <- !map_rev.
        rewrite (nth_map_in fst _ k 0%nat (0%nat, NA) Hbound).
        rewrite (nth_map_in snd _ k NA (0%nat, NA) Hbound).
        apply Hkeyed.
        assert (Hin : In (nth k (rev present) (0%nat, NA)) present)
          by (apply in_rev, nth_In, Hbound).
        now apply filter_In in Hin.
    + apply all_missing_sorted. apply Forall_forall. intros c Hc.
      apply in_map_iff in Hc as (i & <- & Hi).
      apply in_map_iff in Hi as (p & <- & Hp).
      apply filter_In in Hp as [Hp Hna].
      rewrite (Hkeyed p Hp). now destruct (snd p).
    + intros a b _ Hb.
      apply in_map_iff in Hb as (i & <- & Hi).
      apply in_map_iff in Hi as (p & <- & Hp).
      apply filter_In in Hp as [Hp Hna].
      rewrite (Hkeyed p Hp). destruct (snd p); try discriminate.
      now destruct a.
Qed.

End Ranking.

Lemma StronglySorted_firstn {A : Type} (R : A -> A -> Prop) (l : list A) : forall n,
  StronglySorted R l -> StronglySorted R (firstn n l).
Proof.
  intros n H. revert n. induction H as [|a l Hl IH Ha]; intros [|n]; simpl;
    try constructor.
  - apply IH.
  - rewrite Forall_forall in *. intros x Hx. apply Ha.
    rewrite <- (firstn_skipn n l). apply in_or_app. now left.
Qed.

Lemma comes_before_numbers (a b : Z) :
  comes_before (Number a) (Number b) <-> (b <= a)%Z.
Proof. unfold comes_before. simpl. apply Z.ltb_ge. Qed.

(** C1, as the script has it.  With a sort that orders its keys, on a frame
    whose [Average_Price] column is numeric, [topNByPrice] returns a frame
    of exactly min(n, row count) rows under the same columns; they are the
    first [n] rows of a rearrangement of the table in which prices do not
    increase and rows without a price come last.  Fewer than [n] rows is a
    result like any other.  The order of rows with equal prices is whatever
    the sort gives. *)
Theorem topNByPrice_sorted (argsort : list cell -> result (list nat))
    (df : DataFrame) (j n : nat) :
  argsort_sorts argsort ->
  get_loc (columns df) "Average_Price" = Some j ->
  Forall (fun row => price_cell (at_loc j row) = true) (values df) ->
  exists out ranked,
    topNByPrice argsort df n = inr out /\
    columns out = columns df /\
    List.length (values out) = Nat.min n (List.length (values df)) /\
    values out = firstn n ranked /\
    Permutation ranked (values df) /\
    StronglySorted comes_before (map (at_loc j) ranked) /\
    StronglySorted comes_before (map (at_loc j) (values out)).
Proof.
  intros Hsorts Hloc Hprice.
  assert (Hitems : Forall (fun c => price_cell c = true) (map (at_loc j) (values df)))
    by (now apply Forall_map).
  destruct (nargsort_descending argsort Hsorts _ Hitems)
    as (indexer & Hidx & Hperm & Hsorted).
  rewrite length_map in Hperm.
  assert (Hkeys : map (at_loc j) (take [] (values df) indexer)
                  = take NA (map (at_loc j) (values df)) indexer).
  { unfold take. rewrite map_map. apply map_ext. intro i. apply at_loc_nth. }
  assert (Hranked : Permutation (take [] (values df) indexer) (values df))
    by (now apply take_permutation).
  exists (mkDataFrame (columns df) (firstn n (take [] (values df) indexer))),
         (take [] (values df) indexer).
  split.
  - unfold topNByPrice, sort_values. rewrite (getitem_loc _ _ _ Hloc).
    cbn [bind]. rewrite Hidx. reflexivity.
  - cbn [columns values]. split; [reflexivity|]. split.
    + rewrite length_firstn. now rewrite (Permutation_length Hranked).
    + split; [reflexivity|]. split; [exact Hranked|].
      rewrite Hkeys. split; [exact Hsorted|].
      rewrite <- firstn_map, Hkeys. now apply StronglySorted_firstn.
Qed.

Lemma topNByPrice_sorted_witness :
  argsort_sorts argsort_stable /\
  get_loc (columns sample_frame) "Average_Price" = Some 2%nat /\
  Forall (fun row => price_cell (at_loc 2 row) = true) (values sample_frame) /\
  exists out,
    topNByPrice argsort_stable sample_frame 10 = inr out /\
    List.length (values out) = Nat.min 10 (List.length (values sample_frame)).
Proof.
  assert (Hprice : Forall (fun row => price_cell (at_loc 2 row) = true)
                     (values sample_frame))
    by (repeat constructor).
  split; [exact argsort_stable_sorts|]. split; [reflexivity|]. split; [exact Hprice|].
  destruct (topNByPrice_sorted argsort_stable sample_frame 2 10
              argsort_stable_sorts eq_refl Hprice)
    as (out & ranked & Hout & _ & Hlen & _).
  exists out. split; assumption.
Defined.

(** C1, as the claim has it, fails on forty regions of one day of which
    twenty share the highest price.  The claim asks for the first ten of
    those twenty in the order of the table; numpy's quicksort partitions
    the positions around a pivot and exchanges equal keys on the way, so
    the ten rows returned all carry the highest price and are not those
    ten in that order. *)
Lemma topNByPrice_ties_counterexample :
  List.length (values tied_frame) = 40%nat /\
  map (at_loc 1) (spec_topNByPrice 2 (values tied_frame) 10)
  = [Text "Area 01"; Text "Area 03"; Text "Area 05"; Text "Area 07"; Text "Area 09"; Text "Area 11"; Text "Area 13"; Text "Area 15"; Text "Area 17"; Text "Area 19"] /\
  exists out,
    topNByPrice argsort_quicksort tied_frame 10 = inr out /\
    columns out = columns tied_frame /\
    map (at_loc 2) (values out) = repeat (Number 300000) 10 /\
    same_rows (values out) (spec_topNByPrice 2 (values tied_frame) 10) = false.
Proof.
  split; [reflexivity|]. split; [vm_compute; reflexivity|].
  eexists. split; [vm_compute; reflexivity|].
  split; [reflexivity|]. split; vm_compute; reflexivity.
Qed.

(* ================================================================= *)
(** * Further properties of the script *)

(** ** Which error [load_data] raises first *)

Section LoadOutcome.

Variable parse_number : string -> option Z.
Variable parse_datetime : string -> option Z.

Let the_load := load_data parse_number parse_datetime.
Let the_frame := frame_read parse_number.
Let the_dates := to_datetime parse_datetime.


End LoadOutcome.


(** ** The shape of the loaded frame *)

Lemma set_nth_length {A : Type} (x : A) (l : list A) : forall j,
  List.length (set_nth j x l) = List.length l.
Proof.
  induction l as [|a l IH]; intros [|j]; simpl; auto.
Qed.

Lemma drop_cells_length (key : string) (labels : list string) : forall row,
  List.length row = List.length labels ->
  List.length (drop_cells key labels row)
  = List.length (filter (other_label key) labels).
Proof.
  unfold drop_cells.
  induction labels as [|l ls IH]; intros [|c row] H; simpl in *; try discriminate;
    [reflexivity|].
  destruct (other_label key l); simpl; rewrite <- (IH row) by lia; reflexivity.
Qed.

Lemma filter_other_label_length (key : string) (labels : list string) :
  NoDup labels -> In key labels ->
  List.length (filter (other_label key) labels) = (List.length labels - 1)%nat.
Proof.
  induction 1 as [|l ls Hl Hnd IH]; intro Hin; [destruct Hin|].
  simpl. unfold other_label at 1. destruct (String.eqb l key) eqn:E; simpl.
  - apply String.eqb_eq in E. subst l.
    rewrite Nat.sub_0_r. clear IH Hin.
    induction ls as [|x xs IHx]; [reflexivity|].
    simpl. unfold other_label at 1.
    destruct (String.eqb x key) eqn:Ex.
    + apply String.eqb_eq in Ex. subst x. exfalso. apply Hl. now left.
    + simpl. f_equal. apply IHx.
      * intro H. apply Hl. now right.
      * now inversion Hnd.
  - apply String.eqb_neq in E. destruct Hin as [Hin|Hin]; [congruence|].
    rewrite (IH Hin). destruct ls; [destruct Hin | simpl; lia].
Qed.

Lemma in_zip_with {A B C : Type} (f : A -> B -> C) (l : list A) : forall m c,
  In c (zip_with f l m) -> exists a b, In a l /\ In b m /\ c = f a b.
Proof.
  induction l as [|a l IH]; intros [|b m] c H; simpl in H; try destruct H.
  - subst c. exists a, b. simpl. auto.
  - destruct (IH m c H) as (a' & b' & Ha & Hb & Hc).
    exists a', b'. simpl. auto.
Qed.

Lemma cleaned_rectangular (header : list string) (rows : list (list cell)) (j : nat)
    (parsed : list cell) :
  (forall row, In row rows -> List.length row = List.length header) ->
  rectangular (cleaned header rows j parsed).
Proof.
  intro Hrect. unfold rectangular, cleaned. cbn [columns values].
  apply Forall_forall. intros row Hin.
  apply in_map_iff in Hin as (r & <- & Hr).
  apply in_zip_with in Hr as (r0 & v & Hr0 & _ & ->).
  apply drop_cells_length. rewrite set_nth_length. now apply Hrect.
Qed.

Section LoadShape.

Variable parse_number : string -> option Z.
Variable parse_datetime : string -> option Z.

(** X3. The frame [load_data] returns is rectangular, with one row per
    data line of the file; when no label repeats in the header, it has one
    column less than the header, so that [shape], which line 46 displays,
    is (data lines, header labels - 1). *)
Theorem load_data_shape (fs : filesystem) (path : string) (df : DataFrame) :
  load_data parse_number parse_datetime fs path = inr df ->
  rectangular df /\
  exists header records,
    fs path = Content header records /\
    fst (shape df) = List.length records /\
    (NoDup header -> shape df = (List.length records, (List.length header - 1)%nat)).
Proof.
  intro Hload.
  destruct (fs path) as [| |header records] eqn:Hfs;
    try (unfold load_data, read_csv in Hload; rewrite Hfs in Hload; discriminate).
  pose proof Hload as Hsteps.
  rewrite (load_data_steps parse_number parse_datetime fs path header records Hfs)
    in Hsteps.
  destruct (get_loc header "Date") as [j|] eqn:Hj; [|discriminate].
  destruct (to_datetime parse_datetime
              (map (at_loc j) (values (frame_read parse_number header records))))
    as [e|parsed] eqn:Hd; [discriminate|].
  destruct (get_loc header "Average_Price_SA") as [a|] eqn:Ha; [|discriminate].
  assert (Hdf : df = cleaned header (values (frame_read parse_number header records))
                       j parsed)
    by (injection Hsteps as <-; reflexivity).
  assert (Hlen : List.length parsed
                 = List.length (values (frame_read parse_number header records))).
  { rewrite (to_datetime_length parse_datetime _ _ Hd). apply length_map. }
  assert (Hrows : List.length (values df) = List.length records).
  { rewrite Hdf, cleaned_length by exact Hlen. apply length_map. }
  split.
  - rewrite Hdf. apply cleaned_rectangular. apply frame_read_rows.
  - exists header, records. split; [reflexivity|]. split; [exact Hrows|].
    intro Hnd. unfold shape. rewrite Hrows. f_equal.
    rewrite Hdf. unfold cleaned. cbn [columns].
    apply filter_other_label_length; [exact Hnd|].
    destruct (in_dec string_dec "Average_Price_SA" header) as [Hin|Hout];
      [exact Hin|].
    apply get_loc_none in Hout. congruence.
Qed.

End LoadShape.

Lemma load_data_shape_witness :
  load_data decimal_number iso_date sample_fs csv_path = inr sample_frame /\
  rectangular sample_frame.
Proof.
  assert (Hload : load_data decimal_number iso_date sample_fs csv_path = inr sample_frame)
    by (vm_compute; reflexivity).
  split; [exact Hload|].
  apply (load_data_shape decimal_number iso_date sample_fs csv_path sample_frame Hload).
Defined.

(** ** The latest date and its slice *)

Lemma cell_max_choice (a b m : cell) : cell_max a b = inr m -> m = a \/ m = b.
Proof.
  destruct a, b; simpl; intro H; try discriminate; injection H as <-.
  - destruct (String.ltb s s0); auto.
  - destruct (Z.max_spec z z0) as [[_ ->]|[_ ->]]; auto.
  - destruct (Z.max_spec t t0) as [[_ ->]|[_ ->]]; auto.
Qed.

Lemma max_from_member (l : list cell) : forall acc m,
  max_from acc l = inr m -> m = acc \/ In m l.
Proof.
  induction l as [|c l IH]; simpl; intros acc m H.
  - injection H as <-. now left.
  - destruct (cell_max acc c) as [e|m0] eqn:E; [discriminate|]. simpl in H.
    destruct (IH m0 m H) as [->|Hin]; [|auto].
    destruct (cell_max_choice _ _ _ E) as [->| ->]; auto.
Qed.

Lemma series_max_member (col : list cell) (m : cell) :
  series_max col = inr m -> m = NA \/ (m <> NA /\ In m col).
Proof.
  unfold series_max. intro H.
  destruct (filter notna col) as [|c rest] eqn:E.
  - injection H as <-. now left.
  - right.
    assert (Hin : In m (c :: rest))
      by (destruct (max_from_member rest c m H) as [->|Hin]; [now left | now right]).
    rewrite <- E in Hin. apply filter_In in Hin as [Hin Hna].
    split; [|exact Hin]. intros ->. discriminate.
Qed.

Lemma series_max_datetime (col : list cell) :
  Forall (fun c => is_datetime c = true) col ->
  exists m, series_max col = inr m /\ is_datetime m = true.
Proof.
  intro Hall. pose proof (datetime_present col Hall) as Hpresent.
  unfold series_max. destruct (filter notna col) as [|c rest]; [now exists NA|].
  inversion Hpresent as [|c' rest' [a ->] Hrest]; subst.
  destruct (max_from_stamps rest a Hrest) as (m & Hm & _).
  exists (Timestamp m). split; [exact Hm | reflexivity].
Qed.

(** X4. On a frame that [load_data] returned, lines 93 and 95 cannot
    raise: [latestDate] returns a timestamp or NaT, and taking its
    [date()] succeeds. *)
Theorem latest_date_of_loaded (parse_number parse_datetime : string -> option Z)
    (fs : filesystem) (path : string) (df : DataFrame) :
  load_data parse_number parse_datetime fs path = inr df ->
  exists latest,
    latestDate df = inr latest /\
    is_datetime latest = true /\
    date_of latest = inr latest.
Proof.
  intro Hload.
  destruct (load_data_datetime_column parse_number parse_datetime fs path df Hload)
    as (j & Hj & Hall).
  destruct (series_max_datetime (map (at_loc j) (values df))) as (m & Hm & Hd).
  { now apply Forall_map. }
  exists m. unfold latestDate. rewrite (getitem_loc _ _ _ Hj). simpl.
  split; [exact Hm|]. split; [exact Hd|].
  destruct m; try discriminate; reflexivity.
Qed.

Lemma latest_date_of_loaded_witness :
  load_data decimal_number iso_date sample_fs csv_path = inr sample_frame /\
  exists latest, latestDate sample_frame = inr latest /\ date_of latest = inr latest.
Proof.
  assert (Hload : load_data decimal_number iso_date sample_fs csv_path = inr sample_frame)
    by (vm_compute; reflexivity).
  split; [exact Hload|].
  destruct (latest_date_of_loaded decimal_number iso_date sample_fs csv_path
              sample_frame Hload) as (latest & H1 & _ & H2).
  exists latest. split; assumption.
Defined.

(** X5. The slice of lines 93 and 98: when [latestDate] returns a value,
    the rows at that value are exactly the rows of the frame that carry
    it; the slice has a row whenever the value is a date, and is empty
    when the value is the missing date, that is, when no row is dated. *)
Theorem latest_slice (df : DataFrame) (j : nat) (latest : cell) :
  get_loc (columns df) "Date" = Some j ->
  latestDate df = inr latest ->
  exists out,
    rowsAtDate df latest = inr out /\
    columns out = columns df /\
    (forall row, In row (values out) <->
                 In row (values df) /\ at_loc j row = latest /\ latest <> NA) /\
    (latest <> NA -> values out <> []) /\
    (latest = NA ->
     values out = [] /\ forall row, In row (values df) -> at_loc j row = NA).
Proof.
  intros Hj Hlatest.
  rewrite (rowsAtDate_filter df j latest Hj). eexists. split; [reflexivity|].
  cbn [columns values]. split; [reflexivity|].
  assert (Hdate : forall row, date_is j latest row = true
                              <-> at_loc j row = latest /\ latest <> NA).
  { intro row. unfold date_is. rewrite elem_eq_true. split.
    - intros [H1 H2]. split; [assumption | congruence].
    - intros [H1 H2]. split; [assumption | congruence]. }
  unfold latestDate in Hlatest. rewrite (getitem_loc _ _ _ Hj) in Hlatest.
  simpl in Hlatest.
  split; [|split].
  - intro row. rewrite filter_In, Hdate. tauto.
  - intros Hna Hnil.
    destruct (series_max_member _ _ Hlatest) as [->|[_ Hin]]; [now elim Hna|].
    apply in_map_iff in Hin as (row & Hrow & Hin).
    assert (Hmem : In row (filter (date_is j latest) (values df)))
      by (apply filter_In; split; [exact Hin | now apply Hdate]).
    rewrite Hnil in Hmem. destruct Hmem.
  - intros ->. split.
    + apply filter_nil_iff. intros row _. unfold date_is.
      now destruct (at_loc j row).
    + intros row Hin. unfold series_max in Hlatest.
      destruct (filter notna (map (at_loc j) (values df))) as [|c rest] eqn:E.
      * destruct (at_loc j row) eqn:Hc; [reflexivity| | |];
          (assert (Hmem : In (at_loc j row) (filter notna (map (at_loc j) (values df))))
             by (apply filter_In; split; [now apply in_map | now rewrite Hc]);
           rewrite E in Hmem; destruct Hmem).
      * exfalso.
        assert (Hc : In c (filter notna (map (at_loc j) (values df))))
          by (rewrite E; now left).
        apply filter_In in Hc as [_ Hc].
        destruct (max_from_member rest c NA Hlatest) as [<-|Hin0]; [discriminate|].
        assert (Hn : In NA (filter notna (map (at_loc j) (values df))))
          by (rewrite E; now right).
        apply filter_In in Hn as [_ Hn]. discriminate.
Qed.

Lemma latest_slice_witness :
  get_loc (columns sample_frame) "Date" = Some 0%nat /\
  latestDate sample_frame = inr (Timestamp 1706745600000000000) /\
  exists out,
    rowsAtDate sample_frame (Timestamp 1706745600000000000) = inr out /\
    values out <> [].
Proof.
  split; [reflexivity|]. split; [reflexivity|].
  destruct (latest_slice sample_frame 0 (Timestamp 1706745600000000000)
              eq_refl eq_refl) as (out & Hout & _ & _ & Hne & _).
  exists out. split; [exact Hout|]. apply Hne. discriminate.
Defined.

(** ** The select box and the slice of the chosen region *)

Lemma getitem_inr (df : DataFrame) (key : string) (col : list cell) :
  getitem df key = inr col ->
  exists j, get_loc (columns df) key = Some j /\ col = map (at_loc j) (values df).
Proof.
  unfold getitem. destruct (get_loc (columns df) key) as [j|]; [|discriminate].
  intro H. injection H as <-. eauto.
Qed.

(** X6. Every option of the select box of lines 59 to 66 leads to a
    slice at line 69: for a value that [uniqueRegions] lists,
    [filterByRegion] returns exactly the rows that carry it, and at least
    one, unless the value is the missing one, for which the slice is
    empty. *)
Theorem listed_region_has_rows (df : DataFrame) (regions : list cell) (v : cell) :
  uniqueRegions df = inr regions ->
  In v regions ->
  exists j out,
    get_loc (columns df) "Region_Name" = Some j /\
    filterByRegion df v = inr out /\
    (forall row, In row (values out) <->
                 In row (values df) /\ at_loc j row = v /\ v <> NA) /\
    (v <> NA -> values out <> []) /\
    (v = NA -> values out = []).
Proof.
  unfold uniqueRegions. intros Hu Hv.
  destruct (getitem df "Region_Name") as [e|col] eqn:Hcol; [discriminate|].
  simpl in Hu. injection Hu as <-.
  destruct (getitem_inr _ _ _ Hcol) as (j & Hj & ->).
  exists j, (mkDataFrame (columns df) (filter (date_is j v) (values df))).
  split; [exact Hj|]. split.
  - unfold filterByRegion. rewrite Hcol. simpl. now rewrite boolean_index_series_eq.
  - cbn [values].
    assert (Hdate : forall row, date_is j v row = true <-> at_loc j row = v /\ v <> NA).
    { intro row. unfold date_is. rewrite elem_eq_true. split.
      - intros [H1 H2]. split; [assumption | congruence].
      - intros [H1 H2]. split; [assumption | congruence]. }
    split; [|split].
    + intro row. rewrite filter_In, Hdate. tauto.
    + intros Hna Hnil. apply unique_from_In in Hv as [Hv _].
      apply in_map_iff in Hv as (row & Hrow & Hin).
      assert (Hmem : In row (filter (date_is j v) (values df)))
        by (apply filter_In; split; [exact Hin | now apply Hdate]).
      rewrite Hnil in Hmem. destruct Hmem.
    + intros ->. apply filter_nil_iff. intros row _. unfold date_is.
      now destruct (at_loc j row).
Qed.

Lemma listed_region_has_rows_witness :
  uniqueRegions sample_frame = inr [Text "London"; Text "York"] /\
  In (Text "York") [Text "London"; Text "York"] /\
  exists out, filterByRegion sample_frame (Text "York") = inr out /\ values out <> [].
Proof.
  assert (Hin : In (Text "York") [Text "London"; Text "York"]) by (right; now left).
  split; [reflexivity|]. split; [exact Hin|].
  destruct (listed_region_has_rows sample_frame [Text "London"; Text "York"]
              (Text "York") eq_refl Hin) as (j & out & _ & Hout & _ & Hne & _).
  exists out. split; [exact Hout|]. apply Hne. discriminate.
Defined.

Lemma index_of_bound (v : cell) (l : list cell) : forall i,
  index_of v l = inr i ->
  (i < List.length l)%nat /\ nth i l NA = v /\
  forall k, (k < i)%nat -> nth k l NA <> v.
Proof.
  induction l as [|c l IH]; simpl; intros i H; [discriminate|].
  destruct (cell_eqb c v) eqn:E.
  - injection H as <-. apply cell_eqb_eq in E.
    split; [lia|]. split; [exact E|]. intros k Hk. lia.
  - destruct (index_of v l) as [e|i0]; [discriminate|]. simpl in H.
    injection H as <-. destruct (IH i0 eq_refl) as (Hlt & Hnth & Hbefore).
    split; [lia|]. split; [exact Hnth|].
    intros [|k] Hk; simpl.
    + intros ->. now rewrite cell_eqb_refl in E.
    + apply Hbefore. lia.
Qed.

Lemma index_of_absent (v : cell) (l : list cell) :
  ~ In v l -> index_of v l = inl (ValueError "is not in list").
Proof.
  induction l as [|c l IH]; simpl; intro H; [reflexivity|].
  destruct (cell_eqb c v) eqn:E.
  - apply cell_eqb_eq in E. exfalso. apply H. now left.
  - rewrite IH; [reflexivity|]. intro Hin. apply H. now right.
Qed.

Lemma index_of_present (v : cell) (l : list cell) :
  In v l -> exists i, index_of v l = inr i.
Proof.
  induction l as [|c l IH]; simpl; intro H; [destruct H|].
  destruct (cell_eqb c v) eqn:E; [eauto|].
  destruct H as [->|H]; [now rewrite cell_eqb_refl in E|].
  destruct (IH H) as (i & ->). simpl. eauto.
Qed.

(** X7. The default of the select box, line 65: for a string, [index]
    returns the position of its first occurrence in the list, and raises
    [ValueError] exactly when the string is not in the list. *)
Theorem index_of_first (name : string) (l : list cell) :
  (forall i,
      index_of (Text name) l = inr i <->
      (i < List.length l)%nat /\ nth i l NA = Text name /\
      forall k, (k < i)%nat -> nth k l NA <> Text name) /\
  (index_of (Text name) l = inl (ValueError "is not in list") <-> ~ In (Text name) l).
Proof.
  split.
  - intro i. split; [apply index_of_bound|].
    intros (Hlt & Hnth & Hbefore).
    destruct (index_of_present (Text name) l) as (i' & Hi').
    { rewrite <- Hnth. now apply nth_In. }
    destruct (index_of_bound (Text name) l i' Hi') as (Hlt' & Hnth' & Hbefore').
    destruct (Nat.lt_trichotomy i i') as [H|[->|H]]; [|exact Hi'|].
    + now elim (Hbefore' i H).
    + now elim (Hbefore i' H).
  - split; [|apply index_of_absent].
    intros H Hin. destruct (index_of_present (Text name) l Hin) as (i & Hi). congruence.
Qed.

(** ** Runs of the script *)

Lemma describe_total (numeric_dtype : list cell -> bool)
    (summarize : list cell -> stats) (df : DataFrame) :
  columns df <> [] -> exists table, describe numeric_dtype summarize df = inr table.
Proof.
  unfold describe. destruct (columns df); [intro H; now elim H | eauto].
Qed.

Lemma get_loc_nonempty (labels : list string) (key : string) (j : nat) :
  get_loc labels key = Some j -> labels <> [].
Proof. destruct labels; [discriminate | discriminate]. Qed.

Section Runs.

Variable parse_number : string -> option Z.
Variable parse_datetime : string -> option Z.
Variable argsort : list cell -> result (list nat).
Variable numeric_dtype : list cell -> bool.
Variable summarize : list cell -> stats.

Let the_app := app parse_number parse_datetime argsort numeric_dtype summarize.
Let the_load := load_data parse_number parse_datetime.

(** X8. A file that loads but has no row for "United Kingdom" ends the
    run at line 65: the page shows the overview of section 1 and the
    header of section 2, then [index] raises [ValueError], which nothing
    catches; no select box and no chart is rendered.  This includes the
    file without data lines. *)
Theorem run_without_default_region (fs : filesystem) (w : widgets)
    (table : DataFrame) (j : nat) :
  the_load fs csv_path = inr table ->
  get_loc (columns table) "Region_Name" = Some j ->
  (forall row, In row (values table) -> at_loc j row <> Text "United Kingdom") ->
  exists stats_table,
    summaryStatistics numeric_dtype summarize table = inr stats_table /\
    run (the_app fs w)
    = (Uncaught (ValueError "is not in list"), overview w table stats_table).
Proof.
  intros Hload Hj Hnone.
  destruct (describe_total numeric_dtype summarize table) as (stats_table & Hdesc).
  { now apply (get_loc_nonempty _ _ _ Hj). }
  exists stats_table. split; [exact Hdesc|].
  assert (Hregions : uniqueRegions table = inr (unique (map (at_loc j) (values table)))).
  { unfold uniqueRegions. now rewrite (getitem_loc _ _ _ Hj). }
  assert (Hindex : index_of (Text "United Kingdom") (unique (map (at_loc j) (values table)))
                   = inl (ValueError "is not in list")).
  { apply index_of_absent. intro Hin. apply unique_from_In in Hin as [Hin _].
    apply in_map_iff in Hin as (row & Hrow & Hin). now apply (Hnone row Hin). }
  unfold run, the_app.
  destruct (app_after_load parse_number parse_datetime argsort numeric_dtype summarize
              fs w table Hload) as (raw & ->).
  unfold render, overview.
  destruct (show_raw_data w); repeat script_step;
    line_step; unfold summaryStatistics; rewrite Hdesc; repeat script_step;
    line_step; rewrite Hregions;
    rewrite (bind_lift_inl _ _ _ _ Hindex); reflexivity.
Qed.

(** X9. A file that loads but has no [Region_Name] column ends the run at
    line 59 with [KeyError], after the overview of section 1 has been
    rendered. *)
Theorem run_without_region_column (fs : filesystem) (w : widgets) (table : DataFrame) :
  the_load fs csv_path = inr table ->
  get_loc (columns table) "Region_Name" = None ->
  exists stats_table,
    summaryStatistics numeric_dtype summarize table = inr stats_table /\
    run (the_app fs w)
    = (Uncaught (KeyError "Region_Name"), overview w table stats_table).
Proof.
  intros Hload Hnone.
  destruct (load_data_datetime_column parse_number parse_datetime fs csv_path table Hload)
    as (d & Hd & _).
  destruct (describe_total numeric_dtype summarize table) as (stats_table & Hdesc).
  { now apply (get_loc_nonempty _ _ _ Hd). }
  exists stats_table. split; [exact Hdesc|].
  assert (Hregions : uniqueRegions table = inl (KeyError "Region_Name")).
  { unfold uniqueRegions, getitem. now rewrite Hnone. }
  unfold run, the_app.
  destruct (app_after_load parse_number parse_datetime argsort numeric_dtype summarize
              fs w table Hload) as (raw & ->).
  unfold render, overview.
  destruct (show_raw_data w); repeat script_step;
    line_step; unfold summaryStatistics; rewrite Hdesc; repeat script_step;
    line_step; rewrite Hregions; reflexivity.
Qed.

End Runs.

Lemma run_without_default_region_witness :
  load_data decimal_number iso_date sample_fs csv_path = inr sample_frame /\
  get_loc (columns sample_frame) "Region_Name" = Some 1%nat /\
  exists stats_table,
    run (app decimal_number iso_date argsort_stable all_numbers count_present
           sample_fs (mkWidgets false None))
    = (Uncaught (ValueError "is not in list"),
       overview (mkWidgets false None) sample_frame stats_table).
Proof.
  assert (Hload : load_data decimal_number iso_date sample_fs csv_path = inr sample_frame)
    by (vm_compute; reflexivity).
  split; [exact Hload|]. split; [reflexivity|].
  destruct (run_without_default_region decimal_number iso_date argsort_stable
              all_numbers count_present sample_fs (mkWidgets false None)
              sample_frame 1 Hload eq_refl) as (stats_table & _ & Hrun).
  - intros row Hin. simpl in Hin.
    destruct Hin as [<-|[<-|[<-|[]]]]; discriminate.
  - exists stats_table. exact Hrun.
Defined.

Lemma run_without_region_column_witness :
  load_data decimal_number iso_date
    (one_file ["Date"; "Average_Price_SA"] [["2024-01-01"; "1"]]) csv_path
  = inr (mkDataFrame ["Date"] [[Timestamp 1704067200000000000]]) /\
  exists stats_table,
    run (app decimal_number iso_date argsort_stable all_numbers count_present
           (one_file ["Date"; "Average_Price_SA"] [["2024-01-01"; "1"]])
           (mkWidgets true None))
    = (Uncaught (KeyError "Region_Name"),
       overview (mkWidgets true None)
         (mkDataFrame ["Date"] [[Timestamp 1704067200000000000]]) stats_table).
Proof.
  assert (Hload : load_data decimal_number iso_date
                    (one_file ["Date"; "Average_Price_SA"] [["2024-01-01"; "1"]]) csv_path
                  = inr (mkDataFrame ["Date"] [[Timestamp 1704067200000000000]]))
    by (vm_compute; reflexivity).
  split; [exact Hload|].
  destruct (run_without_region_column decimal_number iso_date argsort_stable
              all_numbers count_present _ (mkWidgets true None) _ Hload eq_refl)
    as (stats_table & _ & Hrun).
  exists stats_table. exact Hrun.
Defined.

(** ** Runs whose load fails *)

Section FailedLoad.

Variable parse_number : string -> option Z.
Variable parse_datetime : string -> option Z.
Variable argsort : list cell -> result (list nat).
Variable numeric_dtype : list cell -> bool.
Variable summarize : list cell -> stats.

Let the_app := app parse_number parse_datetime argsort numeric_dtype summarize.
Let the_load := load_data parse_number parse_datetime.

Lemma load_data_error_kinds (fs : filesystem) (path : string) (e : exn) :
  the_load fs path = inl e ->
  (fs path = NoEntry /\ e = FileNotFoundError) \/
  (fs path = Denied /\ e = PermissionError) \/
  (exists header records,
      fs path = Content header records /\
      ((exists label, e = KeyError label) \/ (exists text, e = ValueError text))).
Proof.
  intro Hload. unfold the_load in Hload.
  destruct (fs path) as [| |header records] eqn:Hfs.
  - left. unfold load_data, read_csv in Hload. rewrite Hfs in Hload.
    simpl in Hload. injection Hload as <-. auto.
  - right. left. unfold load_data, read_csv in Hload. rewrite Hfs in Hload.
    simpl in Hload. injection Hload as <-. auto.
  - right. right. exists header, records. split; [reflexivity|].
    rewrite (load_data_steps parse_number parse_datetime fs path header records Hfs)
      in Hload.
    destruct (get_loc header "Date") as [j|]; [|injection Hload as <-; eauto].
    destruct (to_datetime parse_datetime
                (map (at_loc j) (values (frame_read parse_number header records))))
      as [e'|parsed] eqn:Hd.
    + injection Hload as <-.
      destruct (to_datetime_error parse_datetime _ _ Hd) as (s & -> & _). eauto.
    + destruct (get_loc header "Average_Price_SA"); [discriminate|].
      injection Hload as <-. eauto.
Qed.

(** X10. Every failure of [load_data] and what the run makes of it.  A
    missing file is the only failure the script handles: the page shows
    its message and the run halts.  Any other failure, an unreadable file,
    a missing [Date] or [Average_Price_SA] column, a date that does not
    parse, is none of them a [FileNotFoundError]; it leaves the script
    uncaught, and the page shows nothing beyond its configuration. *)
Theorem run_when_load_fails (fs : filesystem) (w : widgets) (e : exn) :
  the_load fs csv_path = inl e ->
  (fs csv_path = NoEntry /\ e = FileNotFoundError /\
   run (the_app fs w) = (Halted, [st_set_page_config; st_error not_found_message]))
  \/
  (fs csv_path <> NoEntry /\ e <> FileNotFoundError /\
   run (the_app fs w) = (Uncaught e, [st_set_page_config])).
Proof.
  intro Hload. unfold the_app.
  rewrite (app_when_load_fails parse_number parse_datetime argsort numeric_dtype
             summarize fs w e Hload).
  destruct (load_data_error_kinds fs csv_path e Hload)
    as [[Hfs ->]|[[Hfs ->]|(header & records & Hfs & [[label ->]|[text ->]])]].
  - left. auto.
  - right. split; [congruence|]. split; [discriminate | reflexivity].
  - right. split; [congruence|]. split; [discriminate | reflexivity].
  - right. split; [congruence|]. split; [discriminate | reflexivity].
Qed.

End FailedLoad.

Lemma run_when_load_fails_witness :
  load_data decimal_number iso_date unadjusted_fs csv_path
  = inl (KeyError "Average_Price_SA") /\
  run (app decimal_number iso_date argsort_stable all_numbers count_present
         unadjusted_fs (mkWidgets false None))
  = (Uncaught (KeyError "Average_Price_SA"), [st_set_page_config]).
Proof.
  assert (Hload : load_data decimal_number iso_date unadjusted_fs csv_path
                  = inl (KeyError "Average_Price_SA"))
    by (vm_compute; reflexivity).
  split; [exact Hload|].
  destruct (run_when_load_fails decimal_number iso_date argsort_stable all_numbers
              count_present unadjusted_fs (mkWidgets false None) _ Hload)
    as [(_ & He & _)|(_ & _ & Hrun)]; [discriminate He | exact Hrun].
Defined.

(** ** The ten dearest regions of the latest date *)

Lemma comes_before_refl (c : cell) : price_cell c = true -> comes_before c c.
Proof.
  destruct c; simpl; try discriminate; intros _; [exact I|].
  apply Z.ltb_irrefl.
Qed.

Lemma sort_values_ranked (argsort : list cell -> result (list nat))
    (df : DataFrame) (p : nat) :
  argsort_sorts argsort ->
  get_loc (columns df) "Average_Price" = Some p ->
  Forall (fun row => price_cell (at_loc p row) = true) (values df) ->
  exists ranked,
    sort_values argsort df "Average_Price" false = inr (mkDataFrame (columns df) ranked) /\
    Permutation ranked (values df) /\
    StronglySorted comes_before (map (at_loc p) ranked).
Proof.
  intros Hsorts Hp Hprice.
  destruct (nargsort_descending argsort Hsorts (map (at_loc p) (values df)))
    as (indexer & Hidx & Hperm & Hsorted).
  { now apply Forall_map. }
  rewrite length_map in Hperm.
  exists (take [] (values df) indexer). split; [|split].
  - unfold sort_values. rewrite (getitem_loc _ _ _ Hp). cbn [bind].
    rewrite Hidx. reflexivity.
  - now apply take_permutation.
  - replace (map (at_loc p) (take [] (values df) indexer))
      with (take NA (map (at_loc p) (values df)) indexer); [exact Hsorted|].
    unfold take. rewrite map_map. apply map_ext. intro i. symmetry. apply at_loc_nth.
Qed.

(** X11. Lines 93 to 101 together.  With a sort that orders its keys, on
    a frame with a [Date] column and a numeric [Average_Price] column, the
    chart data is made of at most ten rows, all of them rows of the table
    at the latest date, as many as there are up to ten, and no row of the
    table at the latest date has a higher price than the first of them. *)
Theorem top_of_latest (argsort : list cell -> result (list nat))
    (df : DataFrame) (d p : nat) (latest : cell) :
  argsort_sorts argsort ->
  get_loc (columns df) "Date" = Some d ->
  get_loc (columns df) "Average_Price" = Some p ->
  Forall (fun row => price_cell (at_loc p row) = true) (values df) ->
  latestDate df = inr latest ->
  exists df_latest top,
    rowsAtDate df latest = inr df_latest /\
    topNByPrice argsort df_latest 10 = inr top /\
    List.length (values top) = Nat.min 10 (List.length (values df_latest)) /\
    (forall row, In row (values top) -> In row (values df) /\ at_loc d row = latest) /\
    (forall first rest row,
        values top = first :: rest ->
        In row (values df) -> at_loc d row = latest ->
        comes_before (at_loc p first) (at_loc p row)).
Proof.
  intros Hsorts Hd Hp Hprice Hlatest.
  set (df_latest := mkDataFrame (columns df) (filter (date_is d latest) (values df))).
  assert (Hslice : rowsAtDate df latest = inr df_latest)
    by (now apply rowsAtDate_filter).
  assert (Hprice' : Forall (fun row => price_cell (at_loc p row) = true)
                      (values df_latest)).
  { apply Forall_forall. intros row Hin. apply filter_In in Hin as [Hin _].
    rewrite Forall_forall in Hprice. now apply Hprice. }
  destruct (sort_values_ranked argsort df_latest p Hsorts Hp Hprice')
    as (ranked & Hsort & Hperm & Hsorted).
  exists df_latest, (mkDataFrame (columns df) (firstn 10 ranked)).
  split; [exact Hslice|]. split.
  { unfold topNByPrice. rewrite Hsort. reflexivity. }
  cbn [values].
  assert (Hmember : forall row, In row ranked ->
                    In row (values df) /\ date_is d latest row = true).
  { intros row Hin. apply (Permutation_in _ Hperm) in Hin.
    now apply filter_In in Hin. }
  assert (Hdate : forall row, date_is d latest row = true
                              <-> at_loc d row = latest /\ latest <> NA).
  { intro row. unfold date_is. rewrite elem_eq_true. split.
    - intros [H1 H2]. split; [assumption | congruence].
    - intros [H1 H2]. split; [assumption | congruence]. }
  split; [|split].
  - rewrite length_firstn. now rewrite (Permutation_length Hperm).
  - intros row Hin.
    assert (Hr : In row ranked).
    { rewrite <- (firstn_skipn 10 ranked). apply in_or_app. now left. }
    destruct (Hmember row Hr) as [H1 H2]. apply Hdate in H2. tauto.
  - intros first rest row Htop Hin Hrow.
    destruct ranked as [|r0 ranked']; [discriminate|].
    simpl in Htop. injection Htop as <- _.
    assert (Hna : latest <> NA).
    { destruct (Hmember r0 (or_introl eq_refl)) as [_ H]. now apply Hdate in H. }
    assert (Hr : In row (r0 :: ranked')).
    { apply (Permutation_in _ (Permutation_sym Hperm)).
      apply filter_In. split; [exact Hin|]. now apply Hdate. }
    destruct Hr as [<-|Hr].
    + apply comes_before_refl. rewrite Forall_forall in Hprice. now apply Hprice.
    + simpl in Hsorted. inversion Hsorted as [|c l _ Hall]; subst.
      rewrite Forall_forall in Hall. apply Hall. now apply in_map.
Qed.

Lemma top_of_latest_witness :
  argsort_sorts argsort_stable /\
  get_loc (columns sample_frame) "Date" = Some 0%nat /\
  get_loc (columns sample_frame) "Average_Price" = Some 2%nat /\
  Forall (fun row => price_cell (at_loc 2 row) = true) (values sample_frame) /\
  latestDate sample_frame = inr (Timestamp 1706745600000000000) /\
  exists df_latest top,
    rowsAtDate sample_frame (Timestamp 1706745600000000000) = inr df_latest /\
    topNByPrice argsort_stable df_latest 10 = inr top.
Proof.
  assert (Hprice : Forall (fun row => price_cell (at_loc 2 row) = true)
                     (values sample_frame))
    by (repeat constructor).
  split; [exact argsort_stable_sorts|]. split; [reflexivity|]. split; [reflexivity|].
  split; [exact Hprice|]. split; [reflexivity|].
  destruct (top_of_latest argsort_stable sample_frame 0 2
              (Timestamp 1706745600000000000)
              argsort_stable_sorts eq_refl eq_refl Hprice eq_refl)
    as (df_latest & top & H1 & H2 & _).
  exists df_latest, top. split; assumption.
Defined.

(** ** Runs that complete *)

Lemma mem_string_get_loc_none (labels : list string) (key : string) :
  get_loc labels key = None -> mem_string key labels = false.
Proof.
  unfold mem_string. induction labels as [|l ls IH]; simpl; [reflexivity|].
  rewrite (String.eqb_sym key l).
  destruct (String.eqb l key); [discriminate|].
  destruct (get_loc ls key) as [k|]; [discriminate|]. intros _. now apply IH.
Qed.

Lemma mem_string_get_loc (labels : list string) (key : string) (j : nat) :
  get_loc labels key = Some j -> mem_string key labels = true.
Proof.
  unfold mem_string. induction labels as [|l ls IH] in j |- *; simpl; [discriminate|].
  rewrite (String.eqb_sym key l).
  destruct (String.eqb l key); [reflexivity|].
  destruct (get_loc ls key) as [k|]; [|discriminate]. intros _. now apply (IH k).
Qed.

Section CompleteRun.

Variable parse_number : string -> option Z.
Variable parse_datetime : string -> option Z.
Variable argsort : list cell -> result (list nat).
Variable numeric_dtype : list cell -> bool.
Variable summarize : list cell -> stats.

Let the_app := app parse_number parse_datetime argsort numeric_dtype summarize.
Let the_load := load_data parse_number parse_datetime.

(** X12. What makes a run complete, and what the page then holds.  With a
    sort that orders its keys, when the file loads to a table with a
    [Region_Name] column that has a row for "United Kingdom" and with a
    numeric [Average_Price] column, no line of the script raises: the
    page is the overview, the select box over the regions with "United
    Kingdom" as default, the chart of the chosen region's rows, and the
    chart of the top ten rows at the latest date, each being what the
    query on the loaded table returns. *)
Theorem run_completes (fs : filesystem) (w : widgets) (table : DataFrame) (r p : nat) :
  argsort_sorts argsort ->
  the_load fs csv_path = inr table ->
  get_loc (columns table) "Region_Name" = Some r ->
  (exists row, In row (values table) /\ at_loc r row = Text "United Kingdom") ->
  get_loc (columns table) "Average_Price" = Some p ->
  Forall (fun row => price_cell (at_loc p row) = true) (values table) ->
  exists stats_table regions default df_region latest df_latest top,
    summaryStatistics numeric_dtype summarize table = inr stats_table /\
    uniqueRegions table = inr regions /\
    index_of (Text "United Kingdom") regions = inr default /\
    nth default regions NA = Text "United Kingdom" /\
    filterByRegion table (chosen_region w regions default) = inr df_region /\
    latestDate table = inr latest /\
    rowsAtDate table latest = inr df_latest /\
    topNByPrice argsort df_latest 10 = inr top /\
    run (the_app fs w)
    = (Completed, full_page w table stats_table regions default df_region latest top).
Proof.
  intros Hsorts Hload Hr (uk & Huk_in & Huk) Hp Hprice.
  destruct (load_data_datetime_column parse_number parse_datetime fs csv_path table Hload)
    as (d & Hd & Hdates).
  destruct (describe_total numeric_dtype summarize table) as (stats_table & Hdesc).
  { now apply (get_loc_nonempty _ _ _ Hr). }
  set (regions := unique (map (at_loc r) (values table))).
  assert (Hregions : uniqueRegions table = inr regions).
  { unfold uniqueRegions. now rewrite (getitem_loc _ _ _ Hr). }
  destruct (index_of_present (Text "United Kingdom") regions) as (default & Hindex).
  { apply unique_from_In. split; [|tauto]. rewrite <- Huk. now apply in_map. }
  destruct (index_of_bound _ _ _ Hindex) as (_ & Hdefault & _).
  set (selected := chosen_region w regions default).
  set (df_region := mkDataFrame (columns table) (filter (date_is r selected) (values table))).
  assert (Hregion : filterByRegion table selected = inr df_region).
  { unfold filterByRegion. rewrite (getitem_loc _ _ _ Hr). simpl.
    now rewrite boolean_index_series_eq. }
  destruct (series_max_datetime (map (at_loc d) (values table))) as (latest & Hmax & Hdt).
  { now apply Forall_map. }
  assert (Hlatest : latestDate table = inr latest).
  { unfold latestDate. now rewrite (getitem_loc _ _ _ Hd). }
  assert (Hday : date_of latest = inr latest)
    by (destruct latest; try discriminate; reflexivity).
  set (df_latest := mkDataFrame (columns table) (filter (date_is d latest) (values table))).
  assert (Hslice : rowsAtDate table latest = inr df_latest)
    by (now apply rowsAtDate_filter).
  assert (Hprice' : Forall (fun row => price_cell (at_loc p row) = true)
                      (values df_latest)).
  { apply Forall_forall. intros row Hin. apply filter_In in Hin as [Hin _].
    rewrite Forall_forall in Hprice. now apply Hprice. }
  destruct (sort_values_ranked argsort df_latest p Hsorts Hp Hprice')
    as (ranked & Hsort & _).
  set (top := mkDataFrame (columns table) (firstn 10 ranked)).
  assert (Htop : topNByPrice argsort df_latest 10 = inr top).
  { unfold topNByPrice. rewrite Hsort. reflexivity. }
  exists stats_table, regions, default, df_region, latest, df_latest, top.
  repeat (split; [assumption|]).
  pose proof (mem_string_get_loc _ _ _ Hd) as Hmd.
  pose proof (mem_string_get_loc _ _ _ Hr) as Hmr.
  pose proof (mem_string_get_loc _ _ _ Hp) as Hmp.
  unfold run, the_app. unfold the_load in Hload.
  destruct (app_after_load parse_number parse_datetime argsort numeric_dtype summarize
              fs w table Hload) as (raw & ->).
  unfold render, full_page, overview.
  destruct (show_raw_data w); repeat script_step;
    line_step; unfold summaryStatistics; rewrite Hdesc; repeat script_step;
    line_step; rewrite Hregions;
    rewrite (bind_lift_inr _ _ _ _ Hindex); cbv beta zeta;
    repeat script_step;
    line_step; fold (chosen_region w regions default); fold selected;
    rewrite Hregion; repeat script_step;
    cbn [List.length Datatypes.app nth];
    line_step;
    cbn [encoded_fields time_series_chart chart_data encode_x encode_y encode_tooltip
         forallb columns df_region];
    rewrite Hmd, Hmp; cbn [andb]; repeat script_step;
    line_step; rewrite Hlatest;
    rewrite (bind_lift_inr _ _ _ _ Hday); repeat script_step;
    line_step; rewrite Hslice;
    cbn [List.length Datatypes.app nth];
    line_step; rewrite Hsort;
    rewrite (bind_lift_inr _ _ _ _ Hday); repeat script_step;
    cbn [List.length Datatypes.app nth];
    unfold altair_chart, head;
    cbn [encoded_fields bar_chart chart_data encode_x encode_y encode_tooltip
         forallb columns values df_latest];
    rewrite Hmr, Hmp; cbn [andb];
    reflexivity.
Qed.

End CompleteRun.

Lemma run_completes_witness :
  argsort_sorts argsort_stable /\
  load_data decimal_number iso_date (one_file sample_header uk_records) csv_path
  = inr uk_frame /\
  get_loc (columns uk_frame) "Region_Name" = Some 1%nat /\
  In uk_row (values uk_frame) /\
  get_loc (columns uk_frame) "Average_Price" = Some 2%nat /\
  Forall (fun row => price_cell (at_loc 2 row) = true) (values uk_frame) /\
  fst (run (app decimal_number iso_date argsort_stable all_numbers count_present
              (one_file sample_header uk_records) (mkWidgets true (Some 0%nat))))
  = Completed.
Proof.
  assert (Hload : load_data decimal_number iso_date (one_file sample_header uk_records)
                    csv_path = inr uk_frame)
    by (vm_compute; reflexivity).
  assert (Hin : In uk_row (values uk_frame))
    by (simpl; right; right; right; left; reflexivity).
  assert (Hprice : Forall (fun row => price_cell (at_loc 2 row) = true) (values uk_frame))
    by (repeat constructor).
  split; [exact argsort_stable_sorts|]. split; [exact Hload|]. split; [reflexivity|].
  split; [exact Hin|]. split; [reflexivity|]. split; [exact Hprice|].
  destruct (run_completes decimal_number iso_date argsort_stable all_numbers
              count_present (one_file sample_header uk_records)
              (mkWidgets true (Some 0%nat)) uk_frame 1 2
              argsort_stable_sorts Hload eq_refl
              (ex_intro _ uk_row (conj Hin eq_refl)) eq_refl Hprice)
    as (stats_table & regions & default & df_region & latest & df_latest & top
        & _ & _ & _ & _ & _ & _ & _ & _ & Hrun).
  now rewrite Hrun.
Defined.

Section NoPriceColumn.

Variable parse_number : string -> option Z.
Variable parse_datetime : string -> option Z.
Variable argsort : list cell -> result (list nat).
Variable numeric_dtype : list cell -> bool.
Variable summarize : list cell -> stats.

Let the_app := app parse_number parse_datetime argsort numeric_dtype summarize.
Let the_load := load_data parse_number parse_datetime.

(** X13. A file that loads with a "United Kingdom" row but without an
    [Average_Price] column gets through section 1 and as far as the select
    box and the heading of the region's chart.  The run ends at line 86,
    where that chart is shown: its channels name [Average_Price], which
    the data does not have, and Altair raises [ValueError].  No chart is
    rendered and section 3 is not reached, whatever the sort. *)
Theorem run_without_price_column (fs : filesystem) (w : widgets) (table : DataFrame)
    (r : nat) :
  the_load fs csv_path = inr table ->
  get_loc (columns table) "Region_Name" = Some r ->
  (exists row, In row (values table) /\ at_loc r row = Text "United Kingdom") ->
  get_loc (columns table) "Average_Price" = None ->
  exists stats_table regions default df_region text,
    summaryStatistics numeric_dtype summarize table = inr stats_table /\
    uniqueRegions table = inr regions /\
    index_of (Text "United Kingdom") regions = inr default /\
    filterByRegion table (chosen_region w regions default) = inr df_region /\
    run (the_app fs w)
    = (Uncaught (ValueError text),
       page_before_chart w table stats_table regions default).
Proof.
  intros Hload Hr (uk & Huk_in & Huk) Hp.
  destruct (describe_total numeric_dtype summarize table) as (stats_table & Hdesc).
  { now apply (get_loc_nonempty _ _ _ Hr). }
  set (regions := unique (map (at_loc r) (values table))).
  assert (Hregions : uniqueRegions table = inr regions).
  { unfold uniqueRegions. now rewrite (getitem_loc _ _ _ Hr). }
  destruct (index_of_present (Text "United Kingdom") regions) as (default & Hindex).
  { apply unique_from_In. split; [|tauto]. rewrite <- Huk. now apply in_map. }
  set (selected := chosen_region w regions default).
  set (df_region := mkDataFrame (columns table) (filter (date_is r selected) (values table))).
  assert (Hregion : filterByRegion table selected = inr df_region).
  { unfold filterByRegion. rewrite (getitem_loc _ _ _ Hr). simpl.
    now rewrite boolean_index_series_eq. }
  pose proof (mem_string_get_loc_none _ _ Hp) as Hmp.
  exists stats_table, regions, default, df_region,
    "Unable to determine data type for the field".
  repeat (split; [assumption|]).
  unfold run, the_app. unfold the_load in Hload.
  destruct (app_after_load parse_number parse_datetime argsort numeric_dtype summarize
              fs w table Hload) as (raw & ->).
  unfold render, page_before_chart, overview.
  destruct (show_raw_data w); repeat script_step;
    line_step; unfold summaryStatistics; rewrite Hdesc; repeat script_step;
    line_step; rewrite Hregions;
    rewrite (bind_lift_inr _ _ _ _ Hindex); cbv beta zeta;
    repeat script_step;
    line_step; fold (chosen_region w regions default); fold selected;
    rewrite Hregion; repeat script_step;
    cbn [List.length Datatypes.app nth];
    line_step;
    cbn [encoded_fields time_series_chart chart_data encode_x encode_y encode_tooltip
         forallb columns df_region];
    rewrite Hmp, !andb_false_r; cbn [andb];
    reflexivity.
Qed.

End NoPriceColumn.

Lemma run_without_price_column_witness :
  load_data decimal_number iso_date
    (one_file ["Date"; "Region_Name"; "Average_Price_SA"]
       [["2024-01-01"; "United Kingdom"; "1"]]) csv_path
  = inr (mkDataFrame ["Date"; "Region_Name"]
           [[Timestamp 1704067200000000000; Text "United Kingdom"]]) /\
  exists text stats_table,
    run (app decimal_number iso_date argsort_stable all_numbers count_present
           (one_file ["Date"; "Region_Name"; "Average_Price_SA"]
              [["2024-01-01"; "United Kingdom"; "1"]])
           (mkWidgets false None))
    = (Uncaught (ValueError text),
       page_before_chart (mkWidgets false None)
         (mkDataFrame ["Date"; "Region_Name"]
            [[Timestamp 1704067200000000000; Text "United Kingdom"]])
         stats_table [Text "United Kingdom"] 0).
Proof.
  assert (Hload : load_data decimal_number iso_date
                    (one_file ["Date"; "Region_Name"; "Average_Price_SA"]
                       [["2024-01-01"; "United Kingdom"; "1"]]) csv_path
                  = inr (mkDataFrame ["Date"; "Region_Name"]
                           [[Timestamp 1704067200000000000; Text "United Kingdom"]]))
    by (vm_compute; reflexivity).
  split; [exact Hload|].
  destruct (run_without_price_column decimal_number iso_date argsort_stable all_numbers
              count_present _ (mkWidgets false None) _ 1 Hload eq_refl
              (ex_intro _ [Timestamp 1704067200000000000; Text "United Kingdom"]
                 (conj (or_introl eq_refl) eq_refl))
              eq_refl)
    as (stats_table & regions & default & df_region & text & _ & Hregions & Hindex & _
        & Hrun).
  injection Hregions as <-. injection Hindex as <-.
  exists text, stats_table. exact Hrun.
Defined.
